(** * WordClock_MAX7219: the word clock sketch, embedded and verified

    The sketch [WordClock_MAX7219.ino] drives an 8x8 LED matrix behind a
    word mask.  This development embeds the time-to-words translation
    ([updateClock]), the digit encoder ([mapNumber]), the summer-time
    offset ([currentHour]) and the time-setting state machine
    ([setupTime]) and proves the properties the specification states about
    them.

    Conventions.  A [uint8_t] is a [Z] in [0, 256) and every assignment to
    one is wrapped with [u8]; a [uint32_t] is wrapped with [u32].  The LED
    driver, the key switch, the EEPROM and [millis()] are libraries outside
    the sketch: the sketch's calls to the driver are recorded as a trace of
    [call]s that a small model of the driver interprets, and what the other
    three return is an input of the model. *)

From Stdlib Require Import ZArith Lia Bool String Ascii.
From stdpp Require Import base option list.

Local Open Scope Z_scope.

(** ** Machine integers *)

Definition u8 (x : Z) : Z := x mod 256.
Definition u32 (x : Z) : Z := x mod 2 ^ 32.

(** Binary literals: [bin "01011000"] is the sketch's [0b01011000]. *)
Fixpoint bin_acc (s : string) (acc : Z) : Z :=
  match s with
  | EmptyString => acc
  | String c s' => bin_acc s' (2 * acc + (if Ascii.eqb c "1"%char then 1 else 0))
  end.
Definition bin (s : string) : Z := bin_acc s 0.

(** ** Configuration constants *)

Definition EE_SUMMER_FLAG : Z := 0.
Definition SETUP_TIMEOUT : Z := 10000.

(** ** The LED matrix driver (MD_MAX72XX, one device)

    The driver keeps one byte per row; [control(UPDATE, ..)] switches the
    automatic refresh, [clear()] zeroes every row and [setRow(r, v)]
    overwrites row [r] (and does nothing for a row that does not exist). *)

Module MD_MAX72XX.

Definition ROW_SIZE : nat := 8.

Inductive call : Type :=
| control_UPDATE (on : bool)
| clear
| setRow (r v : Z).

Record t : Type := mk { updateEnabled : bool; rows : list Z }.

Definition exec (c : call) (d : t) : t :=
  match c with
  | control_UPDATE on => mk on (rows d)
  | clear => mk (updateEnabled d) (replicate ROW_SIZE 0)
  | setRow r v => mk (updateEnabled d) (<[Z.to_nat r := v]> (rows d))
  end.

Definition run (cs : list call) (d : t) : t := foldl (fun d c => exec c d) d cs.

End MD_MAX72XX.

Import MD_MAX72XX.

#[global] Instance call_eq_dec : EqDecision call.
Proof. solve_decision. Defined.

(** ** Effects of the sketch

    A computation either goes wrong (it reads an object that was never
    initialised, or reads past the end of a table) or yields a value and
    the driver calls it made, in order. *)

Definition IO (A : Type) : Type := option (A * list call).

#[global] Instance IO_ret : MRet IO := fun A x => Some (x, []).
#[global] Instance IO_bind : MBind IO := fun A B f c =>
  match c with
  | None => None
  | Some (x, tr) =>
      match f x with
      | None => None
      | Some (y, tr') => Some (y, tr ++ tr')
      end
  end.

Definition emit (c : call) : IO unit := Some (tt, [c]).
Definition wrong {A : Type} : IO A := None.
Definition trace {A : Type} (c : IO A) : option (list call) := snd <$> c.

(** ** Font data (lines 113-130) *)

Definition FONT_ROWS : nat := 8.

Definition fontMap : list (list Z) :=
  [ [ 0x7; 0x5; 0x5; 0x5; 0x5; 0x5; 0x7; 0x0 ]   (* 0 *)
  ; [ 0x1; 0x1; 0x1; 0x1; 0x1; 0x1; 0x1; 0x0 ]   (* 1 *)
  ; [ 0x7; 0x1; 0x1; 0x7; 0x4; 0x4; 0x7; 0x0 ]   (* 2 *)
  ; [ 0x7; 0x1; 0x1; 0x7; 0x1; 0x1; 0x7; 0x0 ]   (* 3 *)
  ; [ 0x4; 0x4; 0x5; 0x5; 0x7; 0x1; 0x1; 0x0 ]   (* 4 *)
  ; [ 0x7; 0x4; 0x4; 0x7; 0x1; 0x1; 0x7; 0x0 ]   (* 5 *)
  ; [ 0x7; 0x4; 0x4; 0x7; 0x5; 0x5; 0x7; 0x0 ]   (* 6 *)
  ; [ 0x7; 0x1; 0x1; 0x1; 0x1; 0x1; 0x1; 0x0 ]   (* 7 *)
  ; [ 0x7; 0x5; 0x5; 0x7; 0x5; 0x5; 0x7; 0x0 ]   (* 8 *)
  ; [ 0x7; 0x5; 0x5; 0x7; 0x1; 0x1; 0x7; 0x0 ]   (* 9 *)
  ; [ 0x0; 0x0; 0x2; 0x7; 0x2; 0x0; 0x0; 0x0 ]   (* + *)
  ; [ 0x0; 0x0; 0x0; 0x7; 0x0; 0x0; 0x0; 0x0 ]   (* - *)
  ].

(** [pgm_read_byte(&fontMap[c][i])]; a read past the table is an error. *)
Definition pgm_read_fontMap (c : Z) (i : nat) : option Z :=
  glyph ← fontMap !! Z.to_nat c; glyph !! i.

(** ** Summer time (lines 189-203)

    The EEPROM is a function from addresses to bytes. *)

Definition EEPROM : Type := Z -> Z.

Definition isSummerMode (E : EEPROM) : bool := negb (E EE_SUMMER_FLAG =? 0).

Definition currentHour (E : EEPROM) (h : Z) : Z :=
  let h := u8 (h + (if isSummerMode E then 1 else 0)) in
  if h >? 12 then 1 else h.

(** ** The digit encoder (lines 237-263) *)

(** One pass of the loop body: [*map = font[hi][i] << 4; *map |= font[lo][i]]. *)
Definition mapNumber_row (hi lo : Z) (i : nat) : option Z :=
  a ← pgm_read_fontMap hi i;
  b ← pgm_read_fontMap lo i;
  Some (Z.lor (u8 (Z.shiftl a 4)) b).

Fixpoint mapNumber_loop (hi lo : Z) (idx : list nat) (map : list Z) : option (list Z) :=
  match idx with
  | [] => Some map
  | i :: idx' =>
      v ← mapNumber_row hi lo i;
      mapNumber_loop hi lo idx' (<[i := v]> map)
  end.

(** [map] is the caller's [FONT_ROWS] byte buffer; the result is the buffer
    after the call. *)
Definition mapNumber (map : list Z) (num : Z) : option (list Z) :=
  let hi := u8 (num / 10) in
  let lo := u8 (num mod 10) in
  mapNumber_loop hi lo (seq 0 FONT_ROWS) map.

Definition mapShow (map : list Z) : list call :=
  [control_UPDATE false; clear]
  ++ imap (fun i v => setRow (Z.of_nat i) v) (take FONT_ROWS map)
  ++ [control_UPDATE true].

(** ** The words of the clock face (lines 152-185) *)

Record clockWord_t : Type := mkWord { row : Z; data : Z }.

#[global] Instance clockWord_eq_dec : EqDecision clockWord_t.
Proof. solve_decision. Defined.

Definition M_05 : clockWord_t := mkWord 2 (bin "11110000").
Definition M_10 : clockWord_t := mkWord 0 (bin "01011000").
Definition M_15 : clockWord_t := mkWord 1 (bin "11111110").
Definition M_20 : clockWord_t := mkWord 0 (bin "01111110").
Definition M_30 : clockWord_t := mkWord 2 (bin "00001111").

Definition TO : clockWord_t := mkWord 3 (bin "00001100").
Definition PAST : clockWord_t := mkWord 3 (bin "01111000").

Definition H_01 : list clockWord_t := [ mkWord 7 (bin "01001001") ].
Definition H_02 : list clockWord_t := [ mkWord 6 (bin "11000000"); mkWord 7 (bin "01000000") ].
Definition H_03 : list clockWord_t := [ mkWord 5 (bin "00011111") ].
Definition H_04 : list clockWord_t := [ mkWord 7 (bin "11110000") ].
Definition H_05 : list clockWord_t := [ mkWord 4 (bin "11110000") ].
Definition H_06 : list clockWord_t := [ mkWord 5 (bin "11100000") ].
Definition H_07 : list clockWord_t := [ mkWord 5 (bin "10000000"); mkWord 6 (bin "00001111") ].
Definition H_08 : list clockWord_t := [ mkWord 4 (bin "00011111") ].
Definition H_09 : list clockWord_t := [ mkWord 7 (bin "00001111") ].
Definition H_10 : list clockWord_t :=
  [ mkWord 4 (bin "00000001"); mkWord 5 (bin "00000001"); mkWord 6 (bin "00000001") ].
Definition H_11 : list clockWord_t := [ mkWord 6 (bin "00111111") ].
Definition H_12 : list clockWord_t := [ mkWord 6 (bin "11110110") ].

Definition ARRAY_SIZE {A : Type} (a : list A) : Z := Z.of_nat (length a).

(** ** updateClock (lines 364-475) *)

Definition PRE_DELTA : Z := 2.
Definition POST_DELTA : Z := 2.

(** [clock.setRow(pgm_read_byte(&w.row), pgm_read_byte(&w.data))] *)
Definition setWord (w : clockWord_t) : IO unit := emit (setRow (row w) (data w)).

(** The arms of [switch (m)], in source order. *)
Inductive minute_arm : Type :=
| ARM_TOP | ARM_FIVE | ARM_TEN | ARM_QUARTER | ARM_TWENTY | ARM_TWENTY_FIVE | ARM_HALF.

#[global] Instance minute_arm_eq_dec : EqDecision minute_arm.
Proof. solve_decision. Defined.

(** The case labels of [switch (m)]: [case lo ... hi:] and the arm the
    label stands on, in source order. *)
Definition minute_cases : list (Z * Z * minute_arm) :=
  [ (0, 0 + POST_DELTA, ARM_TOP)
  ; (60 - PRE_DELTA, 59, ARM_TOP)
  ; (5 - PRE_DELTA, 5 + POST_DELTA, ARM_FIVE)
  ; (55 - PRE_DELTA, 55 + POST_DELTA, ARM_FIVE)
  ; (10 - PRE_DELTA, 10 + POST_DELTA, ARM_TEN)
  ; (50 - PRE_DELTA, 50 + POST_DELTA, ARM_TEN)
  ; (15 - PRE_DELTA, 15 + POST_DELTA, ARM_QUARTER)
  ; (45 - PRE_DELTA, 45 + POST_DELTA, ARM_QUARTER)
  ; (20 - PRE_DELTA, 20 + POST_DELTA, ARM_TWENTY)
  ; (40 - PRE_DELTA, 40 + POST_DELTA, ARM_TWENTY)
  ; (25 - PRE_DELTA, 25 + POST_DELTA, ARM_TWENTY_FIVE)
  ; (35 - PRE_DELTA, 35 + POST_DELTA, ARM_TWENTY_FIVE)
  ; (30 - PRE_DELTA, 30 + POST_DELTA, ARM_HALF)
  ].

Definition case_matches (m : Z) (c : Z * Z * minute_arm) : bool :=
  (c.1.1 <=? m) && (m <=? c.1.2).

(** The switch jumps to the arm of the label that contains [m]; without a
    [default:] no arm runs when no label does. *)
Definition switch_minute (m : Z) : option minute_arm :=
  snd <$> List.find (case_matches m) minute_cases.

Definition minute_arm_body (a : minute_arm) : IO unit :=
  match a with
  | ARM_TOP => mret tt
  | ARM_FIVE => setWord M_05
  | ARM_TEN => setWord M_10
  | ARM_QUARTER => setWord M_15
  | ARM_TWENTY => setWord M_20
  | ARM_TWENTY_FIVE => setWord M_05 ;; setWord M_20
  | ARM_HALF => setWord M_30
  end.

Definition minute_words (m : Z) : IO unit :=
  match switch_minute m with
  | Some a => minute_arm_body a
  | None => mret tt
  end.

(** To/past display (lines 431-444). *)
Definition past_to_words (m : Z) : IO unit :=
  if (0 + POST_DELTA <? m) && (m <? 60 - PRE_DELTA) then
    if m <=? 30 + POST_DELTA then setWord PAST else setWord TO
  else mret tt.

(** After the half hour the hour number is adjusted (lines 446-451). *)
Definition adjust_hour (h m : Z) : Z :=
  if m >? 30 + POST_DELTA then
    if h <? 12 then u8 (h + 1) else 1
  else h.

(** The twelve cases of [switch (currentHour(h))]. *)
Definition hour_cases : list (Z * list clockWord_t) :=
  [ (1, H_01); (2, H_02); (3, H_03); (4, H_04); (5, H_05); (6, H_06)
  ; (7, H_07); (8, H_08); (9, H_09); (10, H_10); (11, H_11); (12, H_12) ].

(** [H] and [numElements] after the switch: both are assigned by the case
    that matches, and stay uninitialised ([None]) when none does. *)
Definition switch_hour (v : Z) : option (list clockWord_t) * option Z :=
  match List.find (fun c => c.1 =? v) hour_cases with
  | Some (_, arr) => (Some arr, Some (ARRAY_SIZE arr))
  | None => (None, None)
  end.

Fixpoint for_each {A : Type} (body : A -> IO unit) (l : list A) : IO unit :=
  match l with
  | [] => mret tt
  | x :: l' => body x ;; for_each body l'
  end.

(** [for (i = 0; i < numElements; i++) clock.setRow(H[i].row, H[i].data)] *)
Definition hour_words (H : option (list clockWord_t)) (numElements : option Z) : IO unit :=
  match numElements with
  | None => wrong
  | Some n =>
      for_each (fun i : nat =>
                  match H with
                  | None => wrong
                  | Some arr =>
                      match arr !! i with
                      | Some w => setWord w
                      | None => wrong
                      end
                  end)
               (seq 0 (Z.to_nat n))
  end.

Definition updateClock (E : EEPROM) (h m : Z) : IO unit :=
  emit (control_UPDATE false) ;;
  emit clear ;;
  minute_words m ;;
  past_to_words m ;;
  let h := adjust_hour h m in
  let '(H, numElements) := switch_hour (currentHour E h) in
  hour_words H numElements ;;
  emit (control_UPDATE true).

(** The display after [updateClock], started on any display [d]. *)
Definition render_words (E : EEPROM) (h m : Z) (d : MD_MAX72XX.t) : option MD_MAX72XX.t :=
  tr ← trace (updateClock E h m); Some (run tr d).

(** ** setupTime (lines 265-333) *)

Inductive stateSetup_t : Type := SS_DISP_HOUR | SS_HOUR | SS_DISP_MIN | SS_MIN | SS_END.

(** What [swMode.read()] returns (MD_KeySwitch). *)
Inductive keyResult_t : Type := KS_NULL | KS_PRESS | KS_DPRESS | KS_LONGPRESS | KS_RPTPRESS.

(** The variables the loop of [setupTime] works on.  [h] and [m] are
    references: the sketch's one call is [setupTime(RTC.h, RTC.m)], so
    [st_h] is at once the parameter [h] and [RTC.h], and [st_m] both [m]
    and [RTC.m]. *)
Record setup_t : Type := mkSetup
  { st_state : stateSetup_t
  ; st_h : Z
  ; st_m : Z
  ; st_timeLastActivity : Z
  ; st_map : list Z
  ; st_clock : MD_MAX72XX.t }.

(** What one pass of the loop reads from outside: [millis()] in the
    timeout test, the result of [swMode.read()] should the pass call it,
    and [millis()] when the pass records the activity. *)
Record poll : Type := mkPoll
  { millis_loop : Z
  ; sw_read : keyResult_t
  ; millis_key : Z }.

Definition timed_out (timeLastActivity : Z) (now : Z) : bool :=
  u32 (now - timeLastActivity) >=? SETUP_TIMEOUT.

(** One pass of the body of [while (state != SS_END)]. *)
Definition setup_iter (E : EEPROM) (p : poll) (st : setup_t) : option setup_t :=
  let '(mkSetup state h m timeLastActivity map clock) := st in
  let state := if timed_out timeLastActivity (millis_loop p) then SS_END else state in
  match state with
  | SS_DISP_HOUR =>
      map ← mapNumber map (currentHour E h);
      Some (mkSetup SS_HOUR h m timeLastActivity map (run (mapShow map) clock))
  | SS_HOUR =>
      match sw_read p with
      | KS_DPRESS => Some (mkSetup SS_DISP_MIN h m (millis_key p) map clock)
      | KS_PRESS =>
          let h := u8 (h + 1) in
          let h := if h =? 13 then 1 else h in
          Some (mkSetup SS_DISP_HOUR h m (millis_key p) map clock)
      | _ => Some (mkSetup state h m timeLastActivity map clock)
      end
  | SS_DISP_MIN =>
      map ← mapNumber map m;
      Some (mkSetup SS_MIN h m timeLastActivity map (run (mapShow map) clock))
  | SS_MIN =>
      match sw_read p with
      | KS_DPRESS => Some (mkSetup SS_END h m (millis_key p) map clock)
      | KS_PRESS =>
          let m := u8 ((m + 1) mod 60) in
          Some (mkSetup SS_DISP_MIN h m (millis_key p) map (run (mapShow map) clock))
      | _ => Some (mkSetup state h m timeLastActivity map clock)
      end
  | SS_END => Some (mkSetup SS_END h m timeLastActivity map clock)
  end.

(** The loop, run on the polls of its passes: it stops at [SS_END], and
    with the polls used up the result is the state reached so far. *)
Fixpoint setupTime_loop (E : EEPROM) (ps : list poll) (st : setup_t) : option setup_t :=
  match st_state st, ps with
  | SS_END, _ => Some st
  | _, [] => Some st
  | _, p :: ps' => st' ← setup_iter E p st; setupTime_loop E ps' st'
  end.

(** [setupTime(h, m)] entered at time [t0] with [map] holding whatever the
    stack held. *)
Definition setupTime (E : EEPROM) (t0 : Z) (map : list Z) (clock : MD_MAX72XX.t)
    (h m : Z) (ps : list poll) : option setup_t :=
  setupTime_loop E ps (mkSetup SS_DISP_HOUR h m t0 map clock).

(** A run of single clicks seen from outside: each click is a pass that reads
    [KS_PRESS] followed by the pass that redraws the number, neither of them
    [SETUP_TIMEOUT] or more after the last activity. *)
Definition is_press (k : keyResult_t) : bool :=
  match k with KS_PRESS => true | _ => false end.

Fixpoint single_clicks (timeLastActivity : Z) (cs : list (poll * poll)) : bool :=
  match cs with
  | [] => true
  | (p, q) :: cs' =>
      is_press (sw_read p)
      && negb (timed_out timeLastActivity (millis_loop p))
      && negb (timed_out (millis_key p) (millis_loop q))
      && single_clicks (millis_key p) cs'
  end.

Definition polls_of (cs : list (poll * poll)) : list poll :=
  flat_map (fun c => [c.1; c.2]) cs.

(** What the [KS_PRESS] arms do to the hour ([h++; if (h == 13) h = 1;]) and
    to the minute ([m = (m + 1) % 60;]). *)
Definition next_hour (h : Z) : Z :=
  let h := u8 (h + 1) in
  if h =? 13 then 1 else h.

Definition next_minute (m : Z) : Z := u8 ((m + 1) mod 60).

(** ** mapOffset (lines 221-235)

    [num] is an [int8_t]; the loop body is that of [mapNumber] with the
    character of the sign in place of the tens digit. *)

Definition i8 (x : Z) : Z := (x + 128) mod 256 - 128.

Definition mapOffset (map : list Z) (num : Z) : option (list Z) :=
  let sign := if num >=? 0 then 10 else 11 in
  let num := i8 (Z.rem (Z.abs num) 10) in
  mapNumber_loop sign num (seq 0 FONT_ROWS) map.

(** ** flipSummerMode and showTime (lines 335-362)

    [delay()] lets time pass and touches nothing the model holds. *)

Definition lift {A : Type} (o : option A) : IO A := x ← o; Some (x, []).
Definition emits (cs : list call) : IO unit := Some (tt, cs).

Definition EEPROM_write (E : EEPROM) (addr v : Z) : EEPROM :=
  fun a => if a =? addr then u8 v else E a.

(** The EEPROM after the call, and what the call does to the display;
    [map] is what the local buffer holds on entry. *)
Definition flipSummerMode (E : EEPROM) (map : list Z) : EEPROM * IO unit :=
  let E := EEPROM_write E EE_SUMMER_FLAG (if isSummerMode E then 0 else 1) in
  (E,
   map ← lift (mapOffset map (if isSummerMode E then 1 else 0));
   emits (mapShow map)).

Definition showTime (map : list Z) (h m : Z) : IO unit :=
  map ← lift (mapNumber map h);
  emits (mapShow map) ;;
  map ← lift (mapNumber map m);
  emits (mapShow map).

(** ** loop (lines 497-548) *)

Definition CLOCK_UPDATE_TIME : Z := 5.

Inductive stateRun_t : Type := SR_UPDATE | SR_IDLE | SR_SETUP | SR_TIME | SR_SUMMER_TIME.

(** The fields [RTC.h], [RTC.m] and [RTC.s] of the clock library's object. *)
Record RTC_t : Type := mkRTC { RTC_h : Z; RTC_m : Z; RTC_s : Z }.

(** What the sketch holds between two calls of [loop]: the two static
    variables, the RTC object, the EEPROM, the display, and the times
    handed to [RTC.writeTime()] so far, the latest first. *)
Record sketch_t : Type := mkSketch
  { sk_state : stateRun_t
  ; sk_timeLastUpdate : Z
  ; sk_RTC : RTC_t
  ; sk_eeprom : EEPROM
  ; sk_clock : MD_MAX72XX.t
  ; sk_written : list RTC_t }.

(** What one call of [loop] reads from outside: [millis()] (its one reading
    in [SR_UPDATE] and [SR_IDLE], the reading on entry of [setupTime] in
    [SR_SETUP]), the result of [swMode.read()] in [SR_IDLE], the time
    [RTC.readTime()] fetches, the polls of the passes of [setupTime], and
    what the local [map] buffer of the callee holds on entry. *)
Record loop_in : Type := mkLoopIn
  { li_millis : Z
  ; li_key : keyResult_t
  ; li_time : RTC_t
  ; li_polls : list poll
  ; li_stack : list Z }.

(** A call returns, goes wrong, or has not returned on the polls given. *)
Inductive outcome (A : Type) : Type :=
| Returns (a : A)
| GoesWrong
| NoReturn.
Arguments Returns {A} a.
Arguments GoesWrong {A}.
Arguments NoReturn {A}.

Definition loop (i : loop_in) (sk : sketch_t) : outcome sketch_t :=
  let '(mkSketch state timeLastUpdate rtc E clock written) := sk in
  match state with
  | SR_UPDATE =>
      let timeLastUpdate := li_millis i in
      let rtc := li_time i in
      match trace (updateClock E (RTC_h rtc) (RTC_m rtc)) with
      | Some tr => Returns (mkSketch SR_IDLE timeLastUpdate rtc E (run tr clock) written)
      | None => GoesWrong
      end
  | SR_IDLE =>
      let state :=
        if u32 (li_millis i - timeLastUpdate) >=? u32 (CLOCK_UPDATE_TIME * 1000)
        then SR_UPDATE else state in
      let state :=
        match li_key i with
        | KS_DPRESS => SR_SETUP
        | KS_PRESS => SR_TIME
        | KS_LONGPRESS => SR_SUMMER_TIME
        | _ => state
        end in
      Returns (mkSketch state timeLastUpdate rtc E clock written)
  | SR_SETUP =>
      match setupTime E (li_millis i) (li_stack i) clock (RTC_h rtc) (RTC_m rtc)
                      (li_polls i) with
      | None => GoesWrong
      | Some st =>
          match st_state st with
          | SS_END =>
              let rtc := mkRTC (st_h st) (st_m st) 0 in
              Returns (mkSketch SR_UPDATE timeLastUpdate rtc E (st_clock st)
                                (rtc :: written))
          | _ => NoReturn
          end
      end
  | SR_TIME =>
      match trace (showTime (li_stack i) (currentHour E (RTC_h rtc)) (RTC_m rtc)) with
      | Some tr => Returns (mkSketch SR_UPDATE timeLastUpdate rtc E (run tr clock) written)
      | None => GoesWrong
      end
  | SR_SUMMER_TIME =>
      let '(E, c) := flipSummerMode E (li_stack i) in
      match trace c with
      | Some tr => Returns (mkSketch SR_UPDATE timeLastUpdate rtc E (run tr clock) written)
      | None => GoesWrong
      end
  end.

(** Successive calls of [loop], one per input. *)
Fixpoint loops (ins : list loop_in) (sk : sketch_t) : outcome sketch_t :=
  match ins with
  | [] => Returns sk
  | i :: ins' =>
      match loop i sk with
      | Returns sk' => loops ins' sk'
      | GoesWrong => GoesWrong
      | NoReturn => NoReturn
      end
  end.

(** ** The properties, in the specification's words *)

(** Displayed hour: [real_hour + (flag ? 1 : 0)], wrapping 13 to 1. *)
Definition spec_displayed_hour (flag : bool) (h : Z) : Z :=
  let d := h + (if flag then 1 else 0) in
  if d =? 13 then 1 else d.

(** Steps 5 then 4 of the phrase encoder: the summer offset first, then the
    advance by one (12 wrapping to 1) in the TO half. *)
Definition spec_effective_hour (flag : bool) (h m : Z) : Z :=
  let d := spec_displayed_hour flag h in
  if m >? 32 then (if d =? 12 then 1 else d + 1) else d.

(** The twelve windows: the top of the hour, [{58,59,0,1,2}], and [a-2 .. a+2]
    around each anchor [a] of 5, 10, ..., 55.  A window is a list of
    closed ranges. *)
Definition zone_windows : list (Z * list (Z * Z)) :=
  (0, [(58, 59); (0, 2)])
  :: ((fun a => (a, [(a - 2, a + 2)])) <$> [5; 10; 15; 20; 25; 30; 35; 40; 45; 50; 55]).

Definition in_range (m : Z) (r : Z * Z) : bool := (r.1 <=? m) && (m <=? r.2).

Definition in_window (m : Z) (w : Z * list (Z * Z)) : bool := existsb (in_range m) w.2.

(** The check of one minute: one window and one label contain it, the label
    is a range of the window, the switch takes the label's arm, and the
    window's anchor is the multiple of 5 nearest to the minute. *)
Definition zone_check (m : Z) : bool :=
  match List.filter (in_window m) zone_windows,
        List.filter (case_matches m) minute_cases with
  | [(a, w)], [(lo, hi, arm)] =>
      bool_decide ((lo, hi) ∈ w)
      && bool_decide (switch_minute m = Some arm)
      && (a =? (5 * ((m + 2) / 5)) mod 60)
  | _, _ => false
  end.

(** The words a trace writes, and the OR of those that target row [r]. *)
Definition spans_of (tr : list call) : list clockWord_t :=
  omap (fun c => match c with setRow r v => Some (mkWord r v) | _ => None end) tr.

Definition word_calls (ws : list clockWord_t) : list call :=
  (fun w => setRow (row w) (data w)) <$> ws.

(** The active WordSpans of a render in the specification's words: the
    phrase of the minute zone (steps 1 and 2), PAST or TO (step 3), and the
    glyph of the effective hour (steps 4 to 6). *)
Definition spec_zone (m : Z) : Z :=
  match List.find (in_window m) zone_windows with
  | Some (a, _) => a
  | None => 0
  end.

Definition spec_minute_phrase (a : Z) : list clockWord_t :=
  if a =? 5 then [M_05]
  else if a =? 10 then [M_10]
  else if a =? 15 then [M_15]
  else if a =? 20 then [M_20]
  else if a =? 25 then [M_20; M_05]
  else if a =? 30 then [M_30]
  else if a =? 35 then [M_20; M_05]
  else if a =? 40 then [M_20]
  else if a =? 45 then [M_15]
  else if a =? 50 then [M_10]
  else if a =? 55 then [M_05]
  else [].

Definition spec_past_to (m : Z) : list clockWord_t :=
  if (m >? 2) && (m <? 58) then (if m <=? 32 then [PAST] else [TO]) else [].

Definition spec_hour_glyph (v : Z) : list clockWord_t :=
  if v =? 1 then H_01
  else if v =? 2 then H_02
  else if v =? 3 then H_03
  else if v =? 4 then H_04
  else if v =? 5 then H_05
  else if v =? 6 then H_06
  else if v =? 7 then H_07
  else if v =? 8 then H_08
  else if v =? 9 then H_09
  else if v =? 10 then H_10
  else if v =? 11 then H_11
  else if v =? 12 then H_12
  else [].

Definition spec_active_spans (flag : bool) (h m : Z) : list clockWord_t :=
  spec_minute_phrase (spec_zone m)
  ++ spec_past_to m
  ++ spec_hour_glyph (spec_effective_hour flag h m).

(** The check of one minute: the words the minute switch writes are the
    phrase of the minute's zone, in some order. *)
Definition phrase_check (m : Z) : bool :=
  match trace (minute_words m) with
  | Some tr => bool_decide (spans_of tr ≡ₚ spec_minute_phrase (spec_zone m))
  | None => false
  end.

(** The word lists the minute arms can write, and the list the to/past
    test writes. *)
Definition minute_options : list (list clockWord_t) :=
  [ []; [M_05]; [M_10]; [M_15]; [M_20]; [M_05; M_20]; [M_30] ].

Definition past_to_list (m : Z) : list clockWord_t :=
  if (2 <? m) && (m <? 58) then if m <=? 32 then [PAST] else [TO] else [].

Definition or_row (r : Z) (ws : list clockWord_t) : Z :=
  foldr (fun w acc => if row w =? r then Z.lor (data w) acc else acc) 0 ws.

(** Nibbles of a row byte. *)
Definition high_nibble (b : Z) : Z := Z.shiftr b 4.
Definition low_nibble (b : Z) : Z := Z.land b 15.

(** ** Further properties *)

(** Every [clear()] and [setRow()] of a trace comes while the automatic
    refresh is off; [upd] is the state of the refresh before the trace. *)
Fixpoint frozen_from (upd : bool) (tr : list call) : bool :=
  match tr with
  | [] => true
  | control_UPDATE on :: tr' => frozen_from on tr'
  | _ :: tr' => negb upd && frozen_from upd tr'
  end.

(** The time of the last activity after a run of single clicks. *)
Definition last_activity (timeLastActivity : Z) (cs : list (poll * poll)) : Z :=
  foldl (fun _ c => millis_key c.1) timeLastActivity cs.

(** A pass that reads neither [KS_PRESS] nor [KS_DPRESS]. *)
Definition no_click (p : poll) : bool :=
  match sw_read p with KS_PRESS | KS_DPRESS => false | _ => true end.

Definition valid_time (h m : Z) : Prop := 1 <= h <= 12 /\ 0 <= m <= 59.

(** What [setupTime] keeps true of its variables. *)
Definition setup_inv (st : setup_t) : Prop :=
  valid_time (st_h st) (st_m st) /\ length (st_map st) = FONT_ROWS.

(** Mirror minutes: the same minute words at [m] and [60 - m]; from 3 to
    27 there is a minute word, the to/past test writes PAST at [m] and TO at
    [60 - m]. *)
Definition mirror_check (m : Z) : bool :=
  bool_decide (minute_words m = minute_words (60 - m))
  && ((m <? 3) || (27 <? m)
      || (bool_decide (past_to_words m = setWord PAST)
          && bool_decide (past_to_words (60 - m) = setWord TO)
          && negb (bool_decide (trace (minute_words m) = Some [])))).

(** * Proofs *)

(** ** Machine integers and finite ranges *)

Lemma u8_small (x : Z) : 0 <= x < 256 -> u8 x = x.
Proof. intros Hx. unfold u8. apply Z.mod_small. exact Hx. Qed.

Lemma forallb_seqZ (f : Z -> bool) (lo n : Z) :
  forallb f (seqZ lo n) = true -> forall x, lo <= x < lo + n -> f x = true.
Proof.
  intros Hall x Hx.
  rewrite forallb_forall in Hall. apply Hall.
  apply list_elem_of_In, elem_of_seqZ. exact Hx.
Qed.

(** ** currentHour *)

Lemma currentHour_clear (E : EEPROM) (h : Z) :
  isSummerMode E = false -> 0 <= h <= 12 -> currentHour E h = h.
Proof.
  intros HE Hh. unfold currentHour. rewrite HE, Z.add_0_r, u8_small by lia.
  destruct (Z.gtb_spec h 12); [lia | reflexivity].
Qed.

Lemma currentHour_set (E : EEPROM) (h : Z) :
  isSummerMode E = true -> 0 <= h <= 12 ->
  currentHour E h = if h =? 12 then 1 else h + 1.
Proof.
  intros HE Hh. unfold currentHour. rewrite HE, u8_small by lia.
  destruct (Z.gtb_spec (h + 1) 12), (Z.eqb_spec h 12); lia.
Qed.

(** C7: for a real hour in 1..12 [currentHour] is the real hour plus one,
    13 wrapping to 1, when the summer flag is set, and the real hour when it
    is clear; the result is in 1..12, and 12 with the flag set gives 1. *)
Theorem currentHour_displayed (E : EEPROM) (h : Z) :
  1 <= h <= 12 ->
  currentHour E h = spec_displayed_hour (isSummerMode E) h
  /\ (isSummerMode E = true -> currentHour E h = if h + 1 =? 13 then 1 else h + 1)
  /\ (isSummerMode E = false -> currentHour E h = h)
  /\ 1 <= currentHour E h <= 12
  /\ (isSummerMode E = true -> h = 12 -> currentHour E h = 1).
Proof.
  intros Hh. unfold spec_displayed_hour.
  destruct (isSummerMode E) eqn:HE.
  - rewrite (currentHour_set E h HE) by lia.
    destruct (Z.eqb_spec h 12), (Z.eqb_spec (h + 1) 13); try lia;
      repeat split; auto; try lia; discriminate.
  - rewrite (currentHour_clear E h HE), Z.add_0_r by lia.
    destruct (Z.eqb_spec h 13); [lia |].
    repeat split; auto; try lia; discriminate.
Qed.

Lemma currentHour_displayed_witness :
  currentHour (fun _ => 1) 12 = 1.
Proof.
  refine (proj2 (proj2 (proj2 (proj2
    (currentHour_displayed (fun _ => 1) 12 _)))) _ _); [lia | reflexivity | reflexivity].
Defined.

(** ** The hour that reaches the switch *)

Lemma adjust_hour_to (h m : Z) :
  1 <= h <= 12 -> 33 <= m -> adjust_hour h m = if h =? 12 then 1 else h + 1.
Proof.
  intros Hh Hm. unfold adjust_hour, POST_DELTA.
  destruct (Z.gtb_spec m (30 + 2)); [| lia].
  destruct (Z.ltb_spec h 12), (Z.eqb_spec h 12); try lia.
  apply u8_small; lia.
Qed.

Lemma adjust_hour_past (h m : Z) : m <= 32 -> adjust_hour h m = h.
Proof.
  intros Hm. unfold adjust_hour, POST_DELTA.
  destruct (Z.gtb_spec m (30 + 2)); [lia | reflexivity].
Qed.

Lemma adjust_hour_range (h m : Z) : 1 <= h <= 12 -> 1 <= adjust_hour h m <= 12.
Proof.
  intros Hh. destruct (Z_le_gt_dec m 32).
  - rewrite adjust_hour_past; lia.
  - rewrite adjust_hour_to by lia. destruct (Z.eqb_spec h 12); lia.
Qed.

Lemma succ_mod_12 (h : Z) : 1 <= h <= 12 -> (if h =? 12 then 1 else h + 1) = h mod 12 + 1.
Proof.
  intros Hh. destruct (Z.eqb_spec h 12) as [-> | Hne]; [reflexivity |].
  rewrite Z.mod_small; lia.
Qed.


(** ** Traces of the sketch's computations *)

Ltac in_list := repeat first [apply list_elem_of_here | apply list_elem_of_further].

Lemma trace_seq {A B : Type} (c : IO A) (k : IO B) :
  trace (c ;; k) = tr1 ← trace c; tr2 ← trace k; Some (tr1 ++ tr2).
Proof.
  destruct c as [[x tr1] |]; [| reflexivity].
  destruct k as [[y tr2] |]; reflexivity.
Qed.

Lemma trace_emit (c : call) : trace (emit c) = Some [c].
Proof. reflexivity. Qed.

Lemma trace_setWord (w : clockWord_t) : trace (setWord w) = Some (word_calls [w]).
Proof. reflexivity. Qed.

Lemma spans_of_word_calls (ws : list clockWord_t) : spans_of (word_calls ws) = ws.
Proof.
  induction ws as [| [r v] ws IH]; [reflexivity |].
  unfold spans_of, word_calls in *. cbn. rewrite IH. reflexivity.
Qed.

Lemma spans_of_app (tr1 tr2 : list call) :
  spans_of (tr1 ++ tr2) = spans_of tr1 ++ spans_of tr2.
Proof. apply omap_app. Qed.

Lemma spans_of_frame (ws : list clockWord_t) :
  spans_of ([control_UPDATE false; clear] ++ word_calls ws ++ [control_UPDATE true]) = ws.
Proof.
  rewrite !spans_of_app, spans_of_word_calls.
  change (spans_of [control_UPDATE false; clear]) with (@nil clockWord_t).
  change (spans_of [control_UPDATE true]) with (@nil clockWord_t).
  rewrite app_nil_r. reflexivity.
Qed.

(** The loop over [H] writes the words of the array in order. *)
Lemma for_each_array (arr pre suf : list clockWord_t) :
  arr = pre ++ suf ->
  trace (for_each (fun i : nat =>
                     match arr !! i with
                     | Some w => setWord w
                     | None => wrong
                     end)
                  (seq (length pre) (length suf)))
  = Some (word_calls suf).
Proof.
  revert pre. induction suf as [| w suf IH]; intros pre Harr; [reflexivity |].
  cbn [length seq for_each]. rewrite trace_seq.
  assert (arr !! length pre = Some w) as ->.
  { rewrite Harr. apply list_lookup_middle. reflexivity. }
  rewrite trace_setWord. cbn [mbind option_bind].
  specialize (IH (pre ++ [w])).
  rewrite length_app, Nat.add_1_r in IH.
  rewrite IH by (rewrite <- app_assoc; exact Harr).
  reflexivity.
Qed.

Lemma hour_words_trace (arr : list clockWord_t) :
  trace (hour_words (Some arr) (Some (ARRAY_SIZE arr))) = Some (word_calls arr).
Proof.
  unfold hour_words, ARRAY_SIZE. rewrite Nat2Z.id.
  apply (for_each_array arr [] arr). reflexivity.
Qed.

(** ** The switches of updateClock *)

Lemma switch_hour_case (v : Z) :
  1 <= v <= 12 ->
  exists arr, ((v, arr) ∈ hour_cases)
              /\ switch_hour v = (Some arr, Some (ARRAY_SIZE arr))
              /\ length (filter (fun c => c.1 = v) hour_cases) = 1%nat.
Proof.
  intros Hv.
  assert (v = 1 \/ v = 2 \/ v = 3 \/ v = 4 \/ v = 5 \/ v = 6
          \/ v = 7 \/ v = 8 \/ v = 9 \/ v = 10 \/ v = 11 \/ v = 12) as Hcases by lia.
  repeat (destruct Hcases as [-> | Hcases]); [.. | subst v];
    (eexists; split; [| split; [reflexivity | reflexivity]]; unfold hour_cases; in_list).
Qed.

Lemma minute_arm_body_trace (a : minute_arm) :
  exists mw, trace (minute_arm_body a) = Some (word_calls mw) /\ (mw ∈ minute_options).
Proof.
  destruct a;
    [ exists [] | exists [M_05] | exists [M_10] | exists [M_15]
    | exists [M_20] | exists [M_05; M_20] | exists [M_30] ];
    (split; [reflexivity | unfold minute_options; in_list]).
Qed.

Lemma minute_words_trace (m : Z) :
  exists mw, trace (minute_words m) = Some (word_calls mw) /\ (mw ∈ minute_options).
Proof.
  unfold minute_words. destruct (switch_minute m) as [a |].
  - apply minute_arm_body_trace.
  - exists []. split; [reflexivity |]. unfold minute_options. in_list.
Qed.

Lemma past_to_words_trace (m : Z) :
  trace (past_to_words m) = Some (word_calls (past_to_list m)).
Proof.
  unfold past_to_words, past_to_list, PRE_DELTA, POST_DELTA.
  change (0 + 2) with 2. change (60 - 2) with 58. change (30 + 2) with 32.
  destruct ((2 <? m) && (m <? 58)); [| reflexivity].
  destruct (m <=? 32); reflexivity.
Qed.

Lemma currentHour_range (E : EEPROM) (h : Z) : 1 <= h <= 12 -> 1 <= currentHour E h <= 12.
Proof.
  intros Hh. destruct (isSummerMode E) eqn:HE.
  - rewrite (currentHour_set E h HE) by lia. destruct (Z.eqb_spec h 12); lia.
  - rewrite (currentHour_clear E h HE) by lia. exact Hh.
Qed.

Lemma hour_value_range (E : EEPROM) (h m : Z) :
  1 <= h <= 12 -> 1 <= currentHour E (adjust_hour h m) <= 12.
Proof. intros Hh. apply currentHour_range, adjust_hour_range, Hh. Qed.

(** The shape of the trace of [updateClock] on a valid hour. *)
Lemma updateClock_trace (E : EEPROM) (h m : Z) :
  1 <= h <= 12 ->
  exists mw hw,
    (mw ∈ minute_options)
    /\ (currentHour E (adjust_hour h m), hw) ∈ hour_cases
    /\ trace (minute_words m) = Some (word_calls mw)
    /\ trace (updateClock E h m)
       = Some ([control_UPDATE false; clear]
               ++ word_calls (mw ++ past_to_list m ++ hw)
               ++ [control_UPDATE true]).
Proof.
  intros Hh.
  destruct (minute_words_trace m) as (mw & Hmw & Hopt).
  destruct (switch_hour_case _ (hour_value_range E h m Hh)) as (hw & Hin & Hsw & _).
  exists mw, hw. repeat split; try assumption.
  unfold updateClock. rewrite Hsw.
  rewrite !trace_seq, !trace_emit, Hmw, past_to_words_trace, hour_words_trace.
  cbn [mbind option_bind]. unfold word_calls. rewrite !fmap_app.
  f_equal. cbn [app]. rewrite <- !app_assoc. reflexivity.
Qed.

(** C6: with the summer flag clear the hour looked up is [(h mod 12) + 1]
    for a minute in 33..59 and [h] itself for a minute in 0..32, and the
    words written for the hour are those of that case. *)
Theorem hour_lookup_flag_clear (E : EEPROM) (h m : Z) :
  isSummerMode E = false -> 1 <= h <= 12 -> 0 <= m <= 59 ->
  (33 <= m -> currentHour E (adjust_hour h m) = h mod 12 + 1)
  /\ (m <= 32 -> currentHour E (adjust_hour h m) = h)
  /\ exists mw hw,
       ((if m <=? 32 then h else h mod 12 + 1, hw) ∈ hour_cases)
       /\ trace (updateClock E h m)
          = Some ([control_UPDATE false; clear]
                  ++ word_calls (mw ++ past_to_list m ++ hw)
                  ++ [control_UPDATE true]).
Proof.
  intros HE Hh Hm.
  pose proof (adjust_hour_range h m Hh) as Hr.
  assert (currentHour E (adjust_hour h m) = if m <=? 32 then h else h mod 12 + 1) as Hv.
  { rewrite (currentHour_clear E _ HE) by lia.
    destruct (Z.leb_spec m 32).
    - apply adjust_hour_past. lia.
    - rewrite adjust_hour_to by lia. apply succ_mod_12, Hh. }
  split; [| split].
  - intros Hm'. rewrite Hv. destruct (Z.leb_spec m 32); [lia | reflexivity].
  - intros Hm'. rewrite Hv. destruct (Z.leb_spec m 32); [reflexivity | lia].
  - destruct (updateClock_trace E h m Hh) as (mw & hw & _ & Hhw & _ & Htr).
    exists mw, hw. rewrite <- Hv. split; assumption.
Qed.

Lemma hour_lookup_flag_clear_witness :
  currentHour (fun _ => 0) (adjust_hour 12 38) = 12 mod 12 + 1.
Proof.
  refine (proj1 (hour_lookup_flag_clear (fun _ => 0) 12 38 _ _ _) _);
    [reflexivity | lia | lia | lia].
Defined.

(** C2: the hour looked up by [updateClock], which adjusts for the TO half
    first and adds the summer offset second, is the hour obtained by adding
    the summer offset first and adjusting second, and the words written for
    the hour are those of that hour. *)
Theorem summer_offset_before_to_adjust (E : EEPROM) (h m : Z) :
  1 <= h <= 12 -> 0 <= m <= 59 ->
  currentHour E (adjust_hour h m) = spec_effective_hour (isSummerMode E) h m
  /\ exists mw hw,
       ((spec_effective_hour (isSummerMode E) h m, hw) ∈ hour_cases)
       /\ trace (updateClock E h m)
          = Some ([control_UPDATE false; clear]
                  ++ word_calls (mw ++ past_to_list m ++ hw)
                  ++ [control_UPDATE true]).
Proof.
  intros Hh Hm.
  assert (currentHour E (adjust_hour h m) = spec_effective_hour (isSummerMode E) h m) as Heq.
  { pose proof (adjust_hour_range h m Hh) as Hr.
    unfold spec_effective_hour, spec_displayed_hour.
    destruct (isSummerMode E) eqn:HE.
    - rewrite (currentHour_set E _ HE) by lia.
      destruct (Z.gtb_spec m 32).
      + rewrite adjust_hour_to by lia.
        destruct (Z.eqb_spec h 12), (Z.eqb_spec (h + 1) 13); try lia;
          try subst h; reflexivity.
      + rewrite adjust_hour_past by lia.
        destruct (Z.eqb_spec h 12), (Z.eqb_spec (h + 1) 13); lia.
    - rewrite (currentHour_clear E _ HE) by lia.
      rewrite Z.add_0_r. destruct (Z.eqb_spec h 13); [lia |].
      destruct (Z.gtb_spec m 32).
      + rewrite adjust_hour_to by lia. reflexivity.
      + apply adjust_hour_past. lia. }
  split; [exact Heq |].
  destruct (updateClock_trace E h m Hh) as (mw & hw & _ & Hhw & _ & Htr).
  exists mw, hw. rewrite <- Heq. split; assumption.
Qed.

Lemma summer_offset_before_to_adjust_witness :
  currentHour (fun _ => 1) (adjust_hour 11 40) = spec_effective_hour true 11 40.
Proof.
  refine (proj1 (summer_offset_before_to_adjust (fun _ => 1) 11 40 _ _)); lia.
Defined.

(** C10: on a valid time the value switched on is in 1..12, exactly one of
    the twelve cases matches it, [H] and [numElements] are both assigned,
    and [updateClock] does not go wrong. *)
Theorem hour_switch_initialised (E : EEPROM) (h m : Z) :
  1 <= h <= 12 -> 0 <= m <= 59 ->
  1 <= currentHour E (adjust_hour h m) <= 12
  /\ length (filter (fun c => c.1 = currentHour E (adjust_hour h m)) hour_cases) = 1%nat
  /\ (exists arr,
         switch_hour (currentHour E (adjust_hour h m)) = (Some arr, Some (ARRAY_SIZE arr)))
  /\ is_Some (updateClock E h m).
Proof.
  intros Hh Hm.
  pose proof (hour_value_range E h m Hh) as Hv.
  destruct (switch_hour_case _ Hv) as (arr & _ & Hsw & Hone).
  split; [exact Hv |]. split; [exact Hone |]. split; [exists arr; exact Hsw |].
  destruct (updateClock_trace E h m Hh) as (mw & hw & _ & _ & _ & Htr).
  unfold trace in Htr. destruct (updateClock E h m); [eauto | discriminate].
Qed.

Lemma hour_switch_initialised_witness :
  is_Some (updateClock (fun _ => 1) 12 59).
Proof.
  refine (proj2 (proj2 (proj2 (hour_switch_initialised (fun _ => 1) 12 59 _ _)))); lia.
Defined.

(** ** Which words can meet *)

Ltac cases_in H :=
  let rec go :=
    first [ apply elem_of_nil in H; destruct H
          | apply elem_of_cons in H; destruct H as [H | H]; [| go] ] in
  go.

Lemma words_apart (mw hw : list clockWord_t) (v : Z) :
  mw ∈ minute_options -> (v, hw) ∈ hour_cases ->
  Forall (fun w => w ∉ hw) [M_05; M_10; M_15; M_20; M_30; PAST; TO]
  /\ (PAST ∉ mw) /\ (TO ∉ mw).
Proof.
  intros Hmw Hhw. unfold minute_options in Hmw. unfold hour_cases in Hhw.
  cases_in Hmw; cases_in Hhw; simplify_eq; compute_done.
Qed.

Lemma words_rows (mw pw hw : list clockWord_t) (v : Z) :
  mw ∈ minute_options -> pw ∈ [[]; [PAST]; [TO]] -> (v, hw) ∈ hour_cases ->
  NoDup (row <$> mw ++ pw ++ hw) /\ Forall (fun w => 0 <= row w) (mw ++ pw ++ hw).
Proof.
  intros Hmw Hpw Hhw. unfold minute_options in Hmw. unfold hour_cases in Hhw.
  cases_in Hmw; cases_in Hpw; cases_in Hhw; simplify_eq; compute_done.
Qed.

Lemma past_to_list_options (m : Z) : past_to_list m ∈ [[]; [PAST]; [TO]].
Proof.
  unfold past_to_list.
  destruct ((2 <? m) && (m <? 58)); [destruct (m <=? 32) |]; in_list.
Qed.

Lemma switch_minute_top (m : Z) :
  0 <= m <= 2 \/ 58 <= m <= 59 -> switch_minute m = Some ARM_TOP.
Proof.
  intros Hm.
  assert (m = 0 \/ m = 1 \/ m = 2 \/ m = 58 \/ m = 59) as Hcases by lia.
  repeat (destruct Hcases as [-> | Hcases]); [.. | subst m]; reflexivity.
Qed.

(** C5: at the top of the hour neither a minute word nor PAST nor TO is
    written; for a minute in 3..32 PAST is and TO is not; for a minute in
    33..57 TO is and PAST is not. *)
Theorem past_to_selection (E : EEPROM) (h m : Z) :
  1 <= h <= 12 -> 0 <= m <= 59 ->
  exists tr,
    trace (updateClock E h m) = Some tr
    /\ (m <= 2 \/ 58 <= m ->
        trace (minute_words m) = Some []
        /\ trace (past_to_words m) = Some []
        /\ Forall (fun w => w ∉ spans_of tr) [M_05; M_10; M_15; M_20; M_30; PAST; TO])
    /\ (3 <= m <= 32 -> (PAST ∈ spans_of tr) /\ (TO ∉ spans_of tr))
    /\ (33 <= m <= 57 -> (TO ∈ spans_of tr) /\ (PAST ∉ spans_of tr)).
Proof.
  intros Hh Hm.
  destruct (updateClock_trace E h m Hh) as (mw & hw & Hmw & Hhw & Hmin & Htr).
  destruct (words_apart mw hw _ Hmw Hhw) as (Hhour & HPAST & HTO).
  eexists. split; [exact Htr |].
  rewrite spans_of_frame.
  assert ((PAST ∉ hw) /\ (TO ∉ hw)) as [HPASTh HTOh].
  { rewrite !Forall_cons in Hhour. tauto. }
  split; [| split].
  - intros Htop.
    assert (trace (minute_words m) = Some []) as Hnone.
    { unfold minute_words. rewrite switch_minute_top by lia. reflexivity. }
    assert (past_to_list m = []) as Hpt.
    { unfold past_to_list.
      destruct (Z.ltb_spec 2 m), (Z.ltb_spec m 58); cbn; try reflexivity; lia. }
    assert (mw = []) as ->.
    { rewrite Hnone in Hmin. injection Hmin as Hnil.
      symmetry in Hnil. apply fmap_nil_inv in Hnil. exact Hnil. }
    split; [exact Hnone |].
    split; [rewrite past_to_words_trace, Hpt; reflexivity |].
    rewrite Hpt. exact Hhour.
  - intros Hpast.
    assert (past_to_list m = [PAST]) as ->.
    { unfold past_to_list.
      destruct (Z.ltb_spec 2 m), (Z.ltb_spec m 58), (Z.leb_spec m 32);
        cbn; try reflexivity; lia. }
    split.
    + rewrite !elem_of_app. right; left. in_list.
    + rewrite !elem_of_app. intros [? | [Hin | ?]]; try tauto.
      apply list_elem_of_singleton in Hin. discriminate.
  - intros Hto.
    assert (past_to_list m = [TO]) as ->.
    { unfold past_to_list.
      destruct (Z.ltb_spec 2 m), (Z.ltb_spec m 58), (Z.leb_spec m 32);
        cbn; try reflexivity; lia. }
    split.
    + rewrite !elem_of_app. right; left. in_list.
    + rewrite !elem_of_app. intros [? | [Hin | ?]]; try tauto.
      apply list_elem_of_singleton in Hin. discriminate.
Qed.

Lemma past_to_selection_witness :
  exists tr, trace (updateClock (fun _ => 0) 9 38) = Some tr
             /\ (TO ∈ spans_of tr) /\ (PAST ∉ spans_of tr).
Proof.
  destruct (past_to_selection (fun _ => 0) 9 38) as (tr & Htr & _ & _ & Hto);
    [lia | lia |].
  exists tr. split; [exact Htr | apply Hto; lia].
Defined.

(** ** The frame the driver holds after a render *)

Lemma run_app (cs1 cs2 : list call) (d : MD_MAX72XX.t) :
  run (cs1 ++ cs2) d = run cs2 (run cs1 d).
Proof. unfold run. apply foldl_app. Qed.

Lemma or_row_untargeted (r : Z) (ws : list clockWord_t) :
  r ∉ row <$> ws -> or_row r ws = 0.
Proof.
  induction ws as [| w ws IH]; intros Hnot; [reflexivity |].
  rewrite fmap_cons, not_elem_of_cons in Hnot. destruct Hnot as [Hne Hnot].
  cbn [or_row foldr]. destruct (Z.eqb_spec (row w) r); [congruence |].
  apply IH, Hnot.
Qed.

Lemma length_run_word_calls (ws : list clockWord_t) (d : MD_MAX72XX.t) :
  length (rows (run (word_calls ws) d)) = length (rows d).
Proof.
  revert d. induction ws as [| w ws IH]; intros d; [reflexivity |].
  change (run (word_calls (w :: ws)) d)
    with (run (word_calls ws) (exec (setRow (row w) (data w)) d)).
  rewrite IH. cbn [exec rows]. apply length_insert.
Qed.

(** Writing words that target pairwise different rows leaves in a row the OR
    of the words that target it, or what the row held when none does. *)
Lemma run_word_calls (ws : list clockWord_t) :
  forall (d : MD_MAX72XX.t) (r x : Z),
    NoDup (row <$> ws) -> Forall (fun w => 0 <= row w) ws -> 0 <= r ->
    rows d !! Z.to_nat r = Some x ->
    rows (run (word_calls ws) d) !! Z.to_nat r
    = Some (if decide (r ∈ row <$> ws) then or_row r ws else x).
Proof.
  induction ws as [| w ws IH]; intros d r x Hnd Hpos Hr Hx.
  - cbn. exact Hx.
  - rewrite fmap_cons, NoDup_cons in Hnd. destruct Hnd as [Hfresh Hnd].
    rewrite Forall_cons in Hpos. destruct Hpos as [Hw Hpos].
    change (run (word_calls (w :: ws)) d)
      with (run (word_calls ws) (exec (setRow (row w) (data w)) d)).
    destruct (Z.eq_dec (row w) r) as [Heq | Hne].
    + subst r.
      rewrite (IH _ (row w) (data w) Hnd Hpos Hr).
      2:{ cbn [exec rows]. apply list_lookup_insert_eq.
          apply lookup_lt_Some in Hx. exact Hx. }
      rewrite decide_False by exact Hfresh.
      rewrite decide_True by (rewrite fmap_cons; apply list_elem_of_here).
      cbn [or_row foldr]. rewrite Z.eqb_refl.
      fold (or_row (row w) ws). rewrite or_row_untargeted by exact Hfresh.
      rewrite Z.lor_0_r. reflexivity.
    + rewrite (IH _ r x Hnd Hpos Hr).
      2:{ cbn [exec rows]. rewrite list_lookup_insert_ne; [exact Hx |].
          intros Hnat. apply Z2Nat.inj in Hnat; lia. }
      cbn [or_row foldr]. fold (or_row r ws).
      destruct (Z.eqb_spec (row w) r); [lia |].
      destruct (decide (r ∈ row <$> ws)) as [Hin | Hout].
      * rewrite decide_True by (rewrite fmap_cons; apply list_elem_of_further, Hin).
        reflexivity.
      * rewrite decide_False; [reflexivity |].
        rewrite fmap_cons, not_elem_of_cons. split; [congruence | exact Hout].
Qed.

Lemma or_row_perm (r : Z) (ws1 ws2 : list clockWord_t) :
  ws1 ≡ₚ ws2 -> or_row r ws1 = or_row r ws2.
Proof.
  induction 1 as [| w ws1 ws2 _ IH | w1 w2 ws | ws1 ws2 ws3 _ IH1 _ IH2].
  - reflexivity.
  - cbn [or_row foldr]. fold (or_row r ws1). fold (or_row r ws2). rewrite IH. reflexivity.
  - cbn [or_row foldr]. fold (or_row r ws).
    destruct (row w1 =? r), (row w2 =? r); try reflexivity.
    rewrite !Z.lor_assoc, (Z.lor_comm (data w2)). reflexivity.
  - congruence.
Qed.

Lemma phrase_check_all : forallb phrase_check (seqZ 0 60) = true.
Proof. vm_compute. reflexivity. Qed.

(** The words the minute switch writes are the phrase of the zone. *)
Lemma minute_words_phrase (m : Z) (mw : list clockWord_t) :
  0 <= m <= 59 -> trace (minute_words m) = Some (word_calls mw) ->
  mw ≡ₚ spec_minute_phrase (spec_zone m).
Proof.
  intros Hm Htr.
  pose proof (forallb_seqZ phrase_check 0 60 phrase_check_all m ltac:(lia)) as Hcheck.
  unfold phrase_check in Hcheck. rewrite Htr, spans_of_word_calls in Hcheck.
  apply bool_decide_eq_true in Hcheck. exact Hcheck.
Qed.

Lemma spec_past_to_list (m : Z) : spec_past_to m = past_to_list m.
Proof. unfold spec_past_to, past_to_list. rewrite Z.gtb_ltb. reflexivity. Qed.

(** The value switched on is the effective hour of the specification. *)
Lemma hour_value_spec (E : EEPROM) (h m : Z) :
  1 <= h <= 12 ->
  currentHour E (adjust_hour h m) = spec_effective_hour (isSummerMode E) h m.
Proof.
  intros Hh. pose proof (adjust_hour_range h m Hh) as Hr.
  unfold spec_effective_hour, spec_displayed_hour.
  destruct (isSummerMode E) eqn:HE.
  - rewrite (currentHour_set E _ HE) by lia.
    destruct (Z.gtb_spec m 32).
    + rewrite adjust_hour_to by lia.
      destruct (Z.eqb_spec h 12), (Z.eqb_spec (h + 1) 13); try lia;
        try subst h; reflexivity.
    + rewrite adjust_hour_past by lia.
      destruct (Z.eqb_spec h 12), (Z.eqb_spec (h + 1) 13); lia.
  - rewrite (currentHour_clear E _ HE) by lia.
    rewrite Z.add_0_r. destruct (Z.eqb_spec h 13); [lia |].
    destruct (Z.gtb_spec m 32).
    + rewrite adjust_hour_to by lia. reflexivity.
    + apply adjust_hour_past. lia.
Qed.

Lemma hour_case_glyph (v : Z) (hw : list clockWord_t) :
  (v, hw) ∈ hour_cases -> hw = spec_hour_glyph v.
Proof.
  intros Hin. unfold hour_cases in Hin. cases_in Hin; simplify_eq; reflexivity.
Qed.

(** The words [updateClock] writes are the active spans of the
    specification, in some order. *)
Lemma updateClock_active_spans (E : EEPROM) (h m : Z) (mw hw : list clockWord_t) :
  1 <= h <= 12 -> 0 <= m <= 59 ->
  trace (minute_words m) = Some (word_calls mw) ->
  (currentHour E (adjust_hour h m), hw) ∈ hour_cases ->
  mw ++ past_to_list m ++ hw ≡ₚ spec_active_spans (isSummerMode E) h m.
Proof.
  intros Hh Hm Hmin Hhw. unfold spec_active_spans.
  rewrite (hour_case_glyph _ _ Hhw), (hour_value_spec E h m Hh), spec_past_to_list.
  apply Permutation_app; [| reflexivity].
  apply minute_words_phrase; assumption.
Qed.

(** C9: the words [updateClock] writes are the active spans of the time -
    the phrase of the minute zone, PAST or TO, and the glyph of the effective
    hour - and after the call every row of the display holds the OR of the
    active spans that target it, and zero when none does, whatever the
    display held before. *)
Theorem frame_is_or_of_spans (E : EEPROM) (h m : Z) (d : MD_MAX72XX.t) :
  1 <= h <= 12 -> 0 <= m <= 59 ->
  exists tr d',
    trace (updateClock E h m) = Some tr
    /\ render_words E h m d = Some d'
    /\ length (rows d') = 8%nat
    /\ spans_of tr ≡ₚ spec_active_spans (isSummerMode E) h m
    /\ forall r, 0 <= r < 8 ->
         rows d' !! Z.to_nat r
         = Some (or_row r (spec_active_spans (isSummerMode E) h m))
         /\ rows d' !! Z.to_nat r = Some (or_row r (spans_of tr))
         /\ ((forall w, w ∈ spec_active_spans (isSummerMode E) h m -> row w <> r) ->
             rows d' !! Z.to_nat r = Some 0).
Proof.
  intros Hh Hm.
  destruct (updateClock_trace E h m Hh) as (mw & hw & Hmw & Hhw & Hmin & Htr).
  destruct (words_rows mw (past_to_list m) hw _ Hmw (past_to_list_options m) Hhw)
    as [Hnd Hpos].
  pose proof (updateClock_active_spans E h m mw hw Hh Hm Hmin Hhw) as Hperm.
  set (ws := mw ++ past_to_list m ++ hw) in *.
  eexists. exists (run ([control_UPDATE false; clear]
                        ++ word_calls ws ++ [control_UPDATE true]) d).
  split; [exact Htr |].
  split; [unfold render_words; rewrite Htr; reflexivity |].
  rewrite spans_of_frame, !run_app.
  set (d1 := run [control_UPDATE false; clear] d).
  assert (rows d1 = replicate 8 0) as Hd1 by reflexivity.
  change (rows (run [control_UPDATE true] (run (word_calls ws) d1)))
    with (rows (run (word_calls ws) d1)).
  split.
  { rewrite length_run_word_calls, Hd1. apply length_replicate. }
  split; [exact Hperm |].
  intros r Hr.
  assert (rows d1 !! Z.to_nat r = Some 0) as Hzero.
  { rewrite Hd1. apply lookup_replicate_2. lia. }
  rewrite (run_word_calls ws d1 r 0 Hnd Hpos) by (lia || exact Hzero).
  assert ((if decide (r ∈ row <$> ws) then or_row r ws else 0) = or_row r ws) as ->.
  { destruct (decide (r ∈ row <$> ws)) as [_ | Hout];
      [reflexivity | symmetry; apply or_row_untargeted, Hout]. }
  split; [rewrite (or_row_perm r _ _ Hperm); reflexivity |].
  split; [reflexivity |].
  intros Hnone. f_equal. apply or_row_untargeted.
  intros Hin. apply list_elem_of_fmap in Hin as (w & -> & Hw).
  apply (Hnone w); [| reflexivity]. rewrite <- Hperm. exact Hw.
Qed.

Lemma frame_is_or_of_spans_witness :
  exists tr d',
    trace (updateClock (fun _ => 1) 6 25) = Some tr
    /\ render_words (fun _ => 1) 6 25 (MD_MAX72XX.mk true [255; 1; 2]) = Some d'
    /\ spans_of tr ≡ₚ [M_20; M_05; PAST] ++ H_07
    /\ rows d' !! 5%nat = Some (or_row 5 ([M_20; M_05; PAST] ++ H_07)).
Proof.
  destruct (frame_is_or_of_spans (fun _ => 1) 6 25 (MD_MAX72XX.mk true [255; 1; 2]))
    as (tr & d' & Htr & Hd & _ & Hperm & Hrows); [lia | lia |].
  exists tr, d'. split; [exact Htr |]. split; [exact Hd |].
  split; [exact Hperm |]. apply (Hrows 5). lia.
Defined.

(** ** The minute zones *)

Lemma zone_check_all : forallb zone_check (seqZ 0 60) = true.
Proof. vm_compute. reflexivity. Qed.

(** C1: every minute of 0..59 lies in exactly one of the twelve windows and
    in exactly one case label of [switch (m)]; the label is a range of that
    window and the switch runs its arm. *)
Theorem minute_windows_partition (m : Z) :
  0 <= m <= 59 ->
  length zone_windows = 12%nat
  /\ exists a w lo hi arm,
       List.filter (in_window m) zone_windows = [(a, w)]
       /\ List.filter (case_matches m) minute_cases = [(lo, hi, arm)]
       /\ ((lo, hi) ∈ w)
       /\ switch_minute m = Some arm
       /\ a = (5 * ((m + 2) / 5)) mod 60.
Proof.
  intros Hm. split; [reflexivity |].
  pose proof (forallb_seqZ zone_check 0 60 zone_check_all m ltac:(lia)) as Hcheck.
  unfold zone_check in Hcheck.
  destruct (List.filter (in_window m) zone_windows) as [| [a w] [| ? ?]];
    try discriminate.
  destruct (List.filter (case_matches m) minute_cases) as [| [[lo hi] arm] [| ? ?]];
    try discriminate.
  apply andb_true_iff in Hcheck as [Hcheck Ha].
  apply andb_true_iff in Hcheck as [Hin Harm].
  apply bool_decide_eq_true in Hin, Harm. apply Z.eqb_eq in Ha.
  exists a, w, lo, hi, arm. auto.
Qed.

Lemma minute_windows_partition_witness :
  exists a w lo hi arm,
    List.filter (in_window 23) zone_windows = [(a, w)]
    /\ List.filter (case_matches 23) minute_cases = [(lo, hi, arm)]
    /\ ((lo, hi) ∈ w)
    /\ switch_minute 23 = Some arm
    /\ a = (5 * ((23 + 2) / 5)) mod 60.
Proof.
  refine (proj2 (minute_windows_partition 23 _)). lia.
Defined.

(** ** The digit encoder *)

Lemma fontMap_glyphs :
  Forall (fun glyph => length glyph = FONT_ROWS /\ Forall (fun t => 0 <= t < 16) glyph)
         fontMap.
Proof. compute_done. Qed.

Lemma pgm_read_fontMap_range (c : Z) (i : nat) :
  0 <= c <= 11 -> (i < FONT_ROWS)%nat ->
  exists t, pgm_read_fontMap c i = Some t /\ 0 <= t < 16.
Proof.
  intros Hc Hi. unfold pgm_read_fontMap.
  destruct (lookup_lt_is_Some_2 fontMap (Z.to_nat c)) as [glyph Hglyph].
  { change (length fontMap) with 12%nat. lia. }
  rewrite Hglyph. cbn [mbind option_bind].
  pose proof (proj1 (Forall_lookup _ _) fontMap_glyphs _ _ Hglyph) as [Hlen Hall].
  destruct (lookup_lt_is_Some_2 glyph i) as [t Ht]; [lia |].
  exists t. split; [exact Ht |].
  exact (proj1 (Forall_lookup _ _) Hall _ _ Ht).
Qed.

Lemma nibbles_of_row (a b : Z) :
  0 <= a < 16 -> 0 <= b < 16 ->
  high_nibble (Z.lor (u8 (Z.shiftl a 4)) b) = a
  /\ low_nibble (Z.lor (u8 (Z.shiftl a 4)) b) = b.
Proof.
  intros Ha Hb. unfold high_nibble, low_nibble.
  rewrite u8_small by (rewrite Z.shiftl_mul_pow2 by lia; lia).
  split.
  - rewrite Z.shiftr_lor, Z.shiftr_shiftl_l, Z.sub_diag, Z.shiftl_0_r by lia.
    rewrite (Z.shiftr_div_pow2 b) by lia.
    rewrite (Z.div_small b) by lia. apply Z.lor_0_r.
  - change 15 with (Z.ones 4).
    rewrite Z.land_lor_distr_l, !Z.land_ones by lia.
    rewrite Z.shiftl_mul_pow2 by lia.
    rewrite Z.mod_mul by lia. rewrite Z.mod_small by lia. reflexivity.
Qed.

Lemma mapNumber_loop_rows (hi lo : Z) (idx : list nat) :
  forall map : list Z,
    Forall (fun i => (i < length map)%nat /\ is_Some (mapNumber_row hi lo i)) idx ->
    exists frame,
      mapNumber_loop hi lo idx map = Some frame
      /\ length frame = length map
      /\ forall i, frame !! i
                   = if decide (i ∈ idx) then mapNumber_row hi lo i else map !! i.
Proof.
  induction idx as [| i idx IH]; intros map Hidx.
  - exists map. repeat split. 
  - rewrite Forall_cons in Hidx. destruct Hidx as [[Hi [v Hv]] Hidx].
    cbn [mapNumber_loop]. rewrite Hv. cbn [mbind option_bind].
    destruct (IH (<[i := v]> map)) as (frame & Hrun & Hlen & Hrows).
    { rewrite length_insert. exact Hidx. }
    exists frame. split; [exact Hrun |].
    split; [rewrite Hlen; apply length_insert |].
    intros j. rewrite Hrows.
    destruct (decide (j ∈ idx)) as [Hin | Hout].
    + rewrite decide_True by (apply list_elem_of_further, Hin). reflexivity.
    + destruct (decide (j = i)) as [-> | Hne].
      * rewrite decide_True by apply list_elem_of_here.
        rewrite list_lookup_insert_eq by exact Hi. symmetry. exact Hv.
      * rewrite decide_False by (rewrite not_elem_of_cons; auto).
        apply list_lookup_insert_ne. congruence.
Qed.

(** [mapNumber] succeeds on every number whose digits are in the font. *)
Lemma mapNumber_rows (map : list Z) (num : Z) :
  length map = FONT_ROWS -> 0 <= num <= 119 ->
  exists frame,
    mapNumber map num = Some frame
    /\ length frame = FONT_ROWS
    /\ forall i, (i < FONT_ROWS)%nat ->
         frame !! i = mapNumber_row (num / 10) (num mod 10) i.
Proof.
  intros Hlen Hnum. unfold mapNumber.
  assert (0 <= num / 10 < 12) as Hhi.
  { split; [apply Z.div_pos; lia | apply Z.div_lt_upper_bound; lia]. }
  pose proof (Z.mod_pos_bound num 10 ltac:(lia)) as Hlo.
  rewrite !u8_small by lia.
  destruct (mapNumber_loop_rows (num / 10) (num mod 10) (seq 0 FONT_ROWS) map)
    as (frame & Hrun & Hlen' & Hrows).
  { apply Forall_forall. intros i Hi. apply elem_of_seq in Hi.
    split; [lia |].
    destruct (pgm_read_fontMap_range (num / 10) i) as (t & Ht & _); [lia | lia |].
    destruct (pgm_read_fontMap_range (num mod 10) i) as (u & Hu & _); [lia | lia |].
    unfold mapNumber_row. rewrite Ht, Hu. eauto. }
  exists frame. split; [exact Hrun |]. split; [lia |].
  intros i Hi. rewrite Hrows.
  rewrite decide_True by (apply elem_of_seq; lia). reflexivity.
Qed.

(** C8: for a value in 0..99 every row of the frame has the glyph row of
    the tens digit in its high nibble and the glyph row of the units digit
    in its low nibble. *)
Theorem mapNumber_nibbles (map : list Z) (v : Z) :
  length map = FONT_ROWS -> 0 <= v <= 99 ->
  exists frame,
    mapNumber map v = Some frame
    /\ length frame = FONT_ROWS
    /\ forall i, (i < FONT_ROWS)%nat ->
         exists b t u,
           frame !! i = Some b
           /\ pgm_read_fontMap (v / 10) i = Some t
           /\ pgm_read_fontMap (v mod 10) i = Some u
           /\ high_nibble b = t
           /\ low_nibble b = u.
Proof.
  intros Hlen Hv.
  destruct (mapNumber_rows map v Hlen) as (frame & Hrun & Hlen' & Hrows); [lia |].
  exists frame. split; [exact Hrun |]. split; [exact Hlen' |].
  intros i Hi.
  assert (0 <= v / 10 < 10) as Hhi.
  { split; [apply Z.div_pos; lia | apply Z.div_lt_upper_bound; lia]. }
  pose proof (Z.mod_pos_bound v 10 ltac:(lia)) as Hlo.
  destruct (pgm_read_fontMap_range (v / 10) i) as (t & Ht & Htr); [lia | lia |].
  destruct (pgm_read_fontMap_range (v mod 10) i) as (u & Hu & Hur); [lia | lia |].
  destruct (nibbles_of_row t u Htr Hur) as [Hhigh Hlow].
  exists (Z.lor (u8 (Z.shiftl t 4)) u), t, u.
  rewrite (Hrows i Hi). unfold mapNumber_row. rewrite Ht, Hu.
  repeat split; assumption.
Qed.

Lemma mapNumber_nibbles_witness :
  exists frame,
    mapNumber [0; 0; 0; 0; 0; 0; 0; 0] 42 = Some frame
    /\ length frame = FONT_ROWS
    /\ forall i, (i < FONT_ROWS)%nat ->
         exists b t u,
           frame !! i = Some b
           /\ pgm_read_fontMap (42 / 10) i = Some t
           /\ pgm_read_fontMap (42 mod 10) i = Some u
           /\ high_nibble b = t
           /\ low_nibble b = u.
Proof.
  apply (mapNumber_nibbles [0; 0; 0; 0; 0; 0; 0; 0] 42); [reflexivity | lia].
Defined.

(** ** setupTime *)

Lemma mapShow_rows (map : list Z) (d : MD_MAX72XX.t) :
  length map = FONT_ROWS -> rows (run (mapShow map) d) = map.
Proof.
  intros Hlen.
  do 9 (destruct map as [| ? map]; try discriminate Hlen).
  reflexivity.
Qed.

Lemma next_hour_cycle (h : Z) : 1 <= h <= 12 -> next_hour h = h mod 12 + 1.
Proof.
  intros Hh. unfold next_hour. rewrite u8_small by lia.
  destruct (Z.eqb_spec (h + 1) 13) as [H13 | H13].
  - replace h with 12 by lia. reflexivity.
  - rewrite Z.mod_small by lia. reflexivity.
Qed.

Lemma next_hour_iter (n : nat) (h : Z) :
  1 <= h <= 12 -> Nat.iter n next_hour h = (h - 1 + Z.of_nat n) mod 12 + 1.
Proof.
  intros Hh. induction n as [| n IH].
  - change (Nat.iter 0 next_hour h) with h. change (Z.of_nat 0) with 0.
    rewrite Z.add_0_r, Z.mod_small by lia. lia.
  - rewrite Nat.iter_succ, IH.
    pose proof (Z.mod_pos_bound (h - 1 + Z.of_nat n) 12 ltac:(lia)) as Hb.
    rewrite next_hour_cycle by lia.
    rewrite Zplus_mod_idemp_l. do 2 f_equal. lia.
Qed.

Lemma next_minute_iter (n : nat) (m : Z) :
  0 <= m <= 59 -> Nat.iter n next_minute m = (m + Z.of_nat n) mod 60.
Proof.
  intros Hm. induction n as [| n IH].
  - change (Nat.iter 0 next_minute m) with m. change (Z.of_nat 0) with 0.
    rewrite Z.add_0_r, Z.mod_small by lia. reflexivity.
  - rewrite Nat.iter_succ, IH. unfold next_minute.
    rewrite Zplus_mod_idemp_l.
    pose proof (Z.mod_pos_bound (m + Z.of_nat n + 1) 60 ltac:(lia)) as Hb.
    rewrite u8_small by lia. f_equal. lia.
Qed.

Lemma single_clicks_cons (tla : Z) (p q : poll) (cs : list (poll * poll)) :
  single_clicks tla ((p, q) :: cs) = true ->
  sw_read p = KS_PRESS
  /\ timed_out tla (millis_loop p) = false
  /\ timed_out (millis_key p) (millis_loop q) = false
  /\ single_clicks (millis_key p) cs = true.
Proof.
  cbn [single_clicks]. rewrite !andb_true_iff, !negb_true_iff.
  intros [[[Hpress Hp] Hq] Hrest].
  destruct (sw_read p); try discriminate Hpress. auto.
Qed.

Section Setup.

(** The summer flag is read from the EEPROM, which [setupTime] never writes. *)
Variable E : EEPROM.

(** The pass of [SS_DISP_HOUR], when the timeout has not struck. *)
Lemma setup_iter_disp_hour (p : poll) (st : setup_t) :
  st_state st = SS_DISP_HOUR -> 1 <= st_h st <= 12 ->
  length (st_map st) = FONT_ROWS ->
  timed_out (st_timeLastActivity st) (millis_loop p) = false ->
  exists frame,
    mapNumber (st_map st) (currentHour E (st_h st)) = Some frame
    /\ length frame = FONT_ROWS
    /\ setup_iter E p st
       = Some (mkSetup SS_HOUR (st_h st) (st_m st) (st_timeLastActivity st) frame
                       (run (mapShow frame) (st_clock st))).
Proof.
  destruct st as [state h m tla map clock]. cbn [st_state st_h st_m st_map
    st_timeLastActivity st_clock]. intros -> Hh Hlen Halive.
  pose proof (currentHour_range E h Hh) as Hc.
  destruct (mapNumber_rows map (currentHour E h) Hlen) as (frame & Hrun & Hlen' & _);
    [lia |].
  exists frame. split; [exact Hrun |]. split; [exact Hlen' |].
  unfold setup_iter. rewrite Halive, Hrun. reflexivity.
Qed.

(** The pass of [SS_DISP_MIN], when the timeout has not struck. *)
Lemma setup_iter_disp_min (p : poll) (st : setup_t) :
  st_state st = SS_DISP_MIN -> 0 <= st_m st <= 59 ->
  length (st_map st) = FONT_ROWS ->
  timed_out (st_timeLastActivity st) (millis_loop p) = false ->
  exists frame,
    mapNumber (st_map st) (st_m st) = Some frame
    /\ length frame = FONT_ROWS
    /\ setup_iter E p st
       = Some (mkSetup SS_MIN (st_h st) (st_m st) (st_timeLastActivity st) frame
                       (run (mapShow frame) (st_clock st))).
Proof.
  destruct st as [state h m tla map clock]. cbn [st_state st_h st_m st_map
    st_timeLastActivity st_clock]. intros -> Hm Hlen Halive.
  destruct (mapNumber_rows map m Hlen) as (frame & Hrun & Hlen' & _); [lia |].
  exists frame. split; [exact Hrun |]. split; [exact Hlen' |].
  unfold setup_iter. rewrite Halive, Hrun. reflexivity.
Qed.

(** Single clicks in [SS_HOUR]: every click applies [next_hour] and comes
    back to [SS_HOUR]. *)
Lemma hour_clicks_run (cs : list (poll * poll)) :
  forall st : setup_t,
    st_state st = SS_HOUR -> 1 <= st_h st <= 12 ->
    length (st_map st) = FONT_ROWS ->
    single_clicks (st_timeLastActivity st) cs = true ->
    exists st',
      setupTime_loop E (polls_of cs) st = Some st'
      /\ st_state st' = SS_HOUR
      /\ st_h st' = Nat.iter (length cs) next_hour (st_h st)
      /\ st_m st' = st_m st.
Proof.
  induction cs as [| [p q] cs IH]; intros st Hstate Hh Hlen Hcs.
  - exists st. destruct st as [state h m tla map clock]. cbn in *. subst state. auto.
  - apply single_clicks_cons in Hcs as (Hpress & Hp & Hq & Hrest).
    destruct st as [state h m tla map clock].
    cbn [st_state st_h st_m st_map st_timeLastActivity st_clock] in *. subst state.
    assert (1 <= next_hour h <= 12) as Hnext.
    { rewrite next_hour_cycle by lia.
      pose proof (Z.mod_pos_bound h 12 ltac:(lia)). lia. }
    destruct (setup_iter_disp_hour q
                (mkSetup SS_DISP_HOUR (next_hour h) m (millis_key p) map clock))
      as (frame & _ & Hlen' & Hshow); try assumption; try reflexivity.
    destruct (IH (mkSetup SS_HOUR (next_hour h) m (millis_key p) frame
                          (run (mapShow frame) clock)))
      as (st' & Hrun & Hstate' & Hh' & Hm'); try assumption; try reflexivity.
    exists st'. split; [| split; [exact Hstate' | split; [| exact Hm']]].
    + cbn [polls_of flat_map app fst snd setupTime_loop st_state].
      assert (setup_iter E p (mkSetup SS_HOUR h m tla map clock)
              = Some (mkSetup SS_DISP_HOUR (next_hour h) m (millis_key p) map clock))
        as ->.
      { unfold setup_iter. rewrite Hp, Hpress. reflexivity. }
      cbn [mbind option_bind setupTime_loop st_state].
      rewrite Hshow. cbn [mbind option_bind]. exact Hrun.
    + rewrite Hh'. cbn [length st_h]. symmetry. apply Nat.iter_succ_r.
Qed.

(** Single clicks in [SS_MIN]: every click applies [next_minute] and comes
    back to [SS_MIN]. *)
Lemma minute_clicks_run (cs : list (poll * poll)) :
  forall st : setup_t,
    st_state st = SS_MIN -> 0 <= st_m st <= 59 ->
    length (st_map st) = FONT_ROWS ->
    single_clicks (st_timeLastActivity st) cs = true ->
    exists st',
      setupTime_loop E (polls_of cs) st = Some st'
      /\ st_state st' = SS_MIN
      /\ st_m st' = Nat.iter (length cs) next_minute (st_m st)
      /\ st_h st' = st_h st.
Proof.
  induction cs as [| [p q] cs IH]; intros st Hstate Hm Hlen Hcs.
  - exists st. destruct st as [state h m tla map clock]. cbn in *. subst state. auto.
  - apply single_clicks_cons in Hcs as (Hpress & Hp & Hq & Hrest).
    destruct st as [state h m tla map clock].
    cbn [st_state st_h st_m st_map st_timeLastActivity st_clock] in *. subst state.
    assert (0 <= next_minute m <= 59) as Hnext.
    { unfold next_minute.
      pose proof (Z.mod_pos_bound (m + 1) 60 ltac:(lia)).
      rewrite u8_small; lia. }
    destruct (setup_iter_disp_min q
                (mkSetup SS_DISP_MIN h (next_minute m) (millis_key p) map
                         (run (mapShow map) clock)))
      as (frame & _ & Hlen' & Hshow); try assumption; try reflexivity.
    destruct (IH (mkSetup SS_MIN h (next_minute m) (millis_key p) frame
                          (run (mapShow frame) (run (mapShow map) clock))))
      as (st' & Hrun & Hstate' & Hm' & Hh'); try assumption; try reflexivity.
    exists st'. split; [| split; [exact Hstate' | split; [| exact Hh']]].
    + cbn [polls_of flat_map app fst snd setupTime_loop st_state].
      assert (setup_iter E p (mkSetup SS_MIN h m tla map clock)
              = Some (mkSetup SS_DISP_MIN h (next_minute m) (millis_key p) map
                              (run (mapShow map) clock)))
        as ->.
      { unfold setup_iter. rewrite Hp, Hpress. reflexivity. }
      cbn [mbind option_bind setupTime_loop st_state].
      rewrite Hshow. cbn [mbind option_bind]. exact Hrun.
    + rewrite Hm'. cbn [length st_m]. symmetry. apply Nat.iter_succ_r.
Qed.


(** C4 (amended): the pass of [SS_DISP_HOUR] shows the digits of
    [currentHour] of the hour being edited: the hour itself with the summer
    flag clear, the hour plus one (12 going to 1) with the flag set. *)
Theorem display_hour_shows_currentHour (p : poll) (st : setup_t) :
  st_state st = SS_DISP_HOUR -> 1 <= st_h st <= 12 ->
  length (st_map st) = FONT_ROWS ->
  timed_out (st_timeLastActivity st) (millis_loop p) = false ->
  exists frame st',
    setup_iter E p st = Some st'
    /\ st_state st' = SS_HOUR
    /\ st_h st' = st_h st
    /\ rows (st_clock st') = frame
    /\ mapNumber (st_map st) (currentHour E (st_h st)) = Some frame
    /\ (isSummerMode E = false -> mapNumber (st_map st) (st_h st) = Some frame)
    /\ (isSummerMode E = true ->
        mapNumber (st_map st) (if st_h st =? 12 then 1 else st_h st + 1) = Some frame).
Proof.
  intros Hstate Hh Hlen Halive.
  destruct (setup_iter_disp_hour p st Hstate Hh Hlen Halive)
    as (frame & Hframe & Hlen' & Hiter).
  eexists frame, _. split; [exact Hiter |].
  cbn [st_state st_h st_clock].
  split; [reflexivity |]. split; [reflexivity |].
  split; [apply mapShow_rows, Hlen' |].
  split; [exact Hframe |].
  split; intros HE.
  - rewrite <- (currentHour_clear E (st_h st) HE) by lia. exact Hframe.
  - rewrite <- (currentHour_set E (st_h st) HE) by lia. exact Hframe.
Qed.

End Setup.



Lemma display_hour_shows_currentHour_witness :
  exists frame st',
    setup_iter (fun _ => 1) (mkPoll 50 KS_NULL 50)
      (mkSetup SS_DISP_HOUR 12 30 0 (replicate 8 0) (MD_MAX72XX.mk true (replicate 8 0)))
    = Some st'
    /\ rows (st_clock st') = frame
    /\ mapNumber (replicate 8 0) 1 = Some frame.
Proof.
  destruct (display_hour_shows_currentHour (fun _ => 1) (mkPoll 50 KS_NULL 50)
    (mkSetup SS_DISP_HOUR 12 30 0 (replicate 8 0) (MD_MAX72XX.mk true (replicate 8 0))))
    as (frame & st' & Hiter & _ & _ & Hrows & _ & _ & Hset);
    [reflexivity | cbn; lia | reflexivity | reflexivity |].
  exists frame, st'. split; [exact Hiter |]. split; [exact Hrows |].
  apply Hset. reflexivity.
Defined.

(** C4 as stated fails: with the summer flag set and hour 3 being edited,
    [SS_DISP_HOUR] shows the digits of 4, which are not those of 3. *)
Lemma display_hour_summer_shows_next :
  (fun st' => rows (st_clock st'))
    <$> setup_iter (fun _ => 1) (mkPoll 0 KS_NULL 0)
          (mkSetup SS_DISP_HOUR 3 0 0 (replicate 8 0)
                   (MD_MAX72XX.mk true (replicate 8 0)))
  = Some [0x74; 0x54; 0x55; 0x55; 0x57; 0x51; 0x71; 0x00]
  /\ mapNumber (replicate 8 0) 4 = Some [0x74; 0x54; 0x55; 0x55; 0x57; 0x51; 0x71; 0x00]
  /\ mapNumber (replicate 8 0) 3 = Some [0x77; 0x51; 0x51; 0x57; 0x51; 0x51; 0x77; 0x00]
  /\ (fun st' => rows (st_clock st'))
       <$> setup_iter (fun _ => 1) (mkPoll 0 KS_NULL 0)
             (mkSetup SS_DISP_HOUR 3 0 0 (replicate 8 0)
                      (MD_MAX72XX.mk true (replicate 8 0)))
     <> mapNumber (replicate 8 0) 3.
Proof.
  split; [vm_compute; reflexivity |].
  split; [vm_compute; reflexivity |].
  split; [vm_compute; reflexivity |].
  vm_compute. discriminate.
Qed.

(** * Further properties of the sketch *)

(** ** The digit encoders at the edge of the font table *)

Lemma mapNumber_loop_frame (hi lo : Z) (map : list Z) :
  0 <= hi <= 11 -> 0 <= lo <= 11 -> length map = FONT_ROWS ->
  exists frame,
    mapNumber_loop hi lo (seq 0 FONT_ROWS) map = Some frame
    /\ length frame = FONT_ROWS
    /\ forall i, (i < FONT_ROWS)%nat ->
         exists b t u,
           frame !! i = Some b
           /\ pgm_read_fontMap hi i = Some t
           /\ pgm_read_fontMap lo i = Some u
           /\ high_nibble b = t
           /\ low_nibble b = u.
Proof.
  intros Hhi Hlo Hlen.
  destruct (mapNumber_loop_rows hi lo (seq 0 FONT_ROWS) map)
    as (frame & Hrun & Hlen' & Hrows).
  { apply Forall_forall. intros i Hi. apply elem_of_seq in Hi.
    split; [lia |].
    destruct (pgm_read_fontMap_range hi i) as (t & Ht & _); [lia | lia |].
    destruct (pgm_read_fontMap_range lo i) as (u & Hu & _); [lia | lia |].
    unfold mapNumber_row. rewrite Ht, Hu. eauto. }
  exists frame. split; [exact Hrun |]. split; [lia |].
  intros i Hi.
  destruct (pgm_read_fontMap_range hi i) as (t & Ht & Htr); [lia | lia |].
  destruct (pgm_read_fontMap_range lo i) as (u & Hu & Hur); [lia | lia |].
  destruct (nibbles_of_row t u Htr Hur) as [Hhigh Hlow].
  exists (Z.lor (u8 (Z.shiftl t 4)) u), t, u.
  rewrite Hrows, decide_True by (apply elem_of_seq; lia).
  unfold mapNumber_row. rewrite Ht, Hu. repeat split; assumption.
Qed.

Lemma mapNumber_loop_past_table (hi lo : Z) (map : list Z) :
  12 <= hi -> mapNumber_loop hi lo (seq 0 FONT_ROWS) map = None.
Proof.
  intros Hhi.
  assert (fontMap !! Z.to_nat hi = None) as Hout.
  { apply lookup_ge_None_2. change (length fontMap) with 12%nat. lia. }
  cbn [FONT_ROWS seq mapNumber_loop].
  unfold mapNumber_row, pgm_read_fontMap. rewrite Hout. reflexivity.
Qed.

Lemma mapNumber_frame (map : list Z) (num : Z) :
  length map = FONT_ROWS -> 0 <= num <= 119 ->
  exists frame,
    mapNumber map num = Some frame
    /\ length frame = FONT_ROWS
    /\ forall i, (i < FONT_ROWS)%nat ->
         exists b t u,
           frame !! i = Some b
           /\ pgm_read_fontMap (num / 10) i = Some t
           /\ pgm_read_fontMap (num mod 10) i = Some u
           /\ high_nibble b = t
           /\ low_nibble b = u.
Proof.
  intros Hlen Hnum. unfold mapNumber.
  assert (0 <= num / 10 < 12) as Hhi
    by (split; [apply Z.div_pos; lia | apply Z.div_lt_upper_bound; lia]).
  pose proof (Z.mod_pos_bound num 10 ltac:(lia)) as Hlo.
  rewrite !u8_small by lia.
  apply mapNumber_loop_frame; [lia | lia | exact Hlen].
Qed.

(** [mapNumber] on a byte stays inside the font table exactly up to 119:
    from 120 on the tens digit indexes past the twelve characters. *)
Theorem mapNumber_in_table (map : list Z) (num : Z) :
  length map = FONT_ROWS -> 0 <= num <= 255 ->
  (is_Some (mapNumber map num) <-> num <= 119).
Proof.
  intros Hlen Hnum. split.
  - intros [frame Hframe]. destruct (Z_le_gt_dec num 119) as [Hle | Hgt]; [exact Hle |].
    exfalso. unfold mapNumber in Hframe.
    assert (12 <= num / 10 < 26) as Hhi.
    { split; [apply Z.div_le_lower_bound; lia | apply Z.div_lt_upper_bound; lia]. }
    rewrite (u8_small (num / 10)) in Hframe by lia.
    rewrite mapNumber_loop_past_table in Hframe by lia. discriminate.
  - intros Hle. destruct (mapNumber_rows map num Hlen) as (frame & Hrun & _); [lia |].
    exists frame. exact Hrun.
Qed.

Lemma mapNumber_in_table_witness :
  is_Some (mapNumber (replicate 8 0) 119) <-> 119 <= 119.
Proof.
  apply (mapNumber_in_table (replicate 8 0) 119); [reflexivity | lia].
Defined.

Lemma fontMap_digits_distinct :
  forallb (fun c =>
    forallb (fun c' =>
      (c =? c')
      || existsb (fun i =>
           negb (bool_decide (pgm_read_fontMap c i = pgm_read_fontMap c' i)))
           (seq 0 FONT_ROWS))
      (seqZ 0 10))
    (seqZ 0 10) = true.
Proof. vm_compute. reflexivity. Qed.

Lemma fontMap_digit_inj (c c' : Z) :
  0 <= c <= 9 -> 0 <= c' <= 9 ->
  (forall i, (i < FONT_ROWS)%nat -> pgm_read_fontMap c i = pgm_read_fontMap c' i) ->
  c = c'.
Proof.
  intros Hc Hc' Hsame.
  pose proof (forallb_seqZ _ 0 10 fontMap_digits_distinct c ltac:(lia)) as Hrow.
  cbv beta in Hrow.
  pose proof (forallb_seqZ _ 0 10 Hrow c' ltac:(lia)) as Hcell.
  cbv beta in Hcell.
  apply orb_true_iff in Hcell as [Heq | Hdiff]; [apply Z.eqb_eq, Heq |].
  exfalso. apply existsb_exists in Hdiff as (i & Hi & Hne).
  apply negb_true_iff, bool_decide_eq_false in Hne. apply Hne, Hsame.
  apply in_seq in Hi. lia.
Qed.

(** The frame of [mapNumber] tells the number: two values of 0..99 with
    the same frame are the same value, whatever the buffers held before. *)
Theorem mapNumber_inj (map map' : list Z) (u v : Z) :
  length map = FONT_ROWS -> length map' = FONT_ROWS ->
  0 <= u <= 99 -> 0 <= v <= 99 ->
  mapNumber map u = mapNumber map' v -> u = v.
Proof.
  intros Hlen Hlen' Hu Hv Heq.
  destruct (mapNumber_frame map u Hlen) as (fu & Hfu & _ & Hrows_u); [lia |].
  destruct (mapNumber_frame map' v Hlen') as (fv & Hfv & _ & Hrows_v); [lia |].
  rewrite Hfu, Hfv in Heq. injection Heq as <-.
  assert (0 <= u / 10 < 10) as Hhu
    by (split; [apply Z.div_pos; lia | apply Z.div_lt_upper_bound; lia]).
  assert (0 <= v / 10 < 10) as Hhv
    by (split; [apply Z.div_pos; lia | apply Z.div_lt_upper_bound; lia]).
  pose proof (Z.mod_pos_bound u 10 ltac:(lia)) as Hlu.
  pose proof (Z.mod_pos_bound v 10 ltac:(lia)) as Hlv.
  assert (u / 10 = v / 10) as Hhi.
  { apply fontMap_digit_inj; [lia | lia |]. intros i Hi.
    destruct (Hrows_u i Hi) as (b & t & w & Hb & Ht & _ & Hh & _).
    destruct (Hrows_v i Hi) as (b' & t' & w' & Hb' & Ht' & _ & Hh' & _).
    rewrite Ht, Ht'. congruence. }
  assert (u mod 10 = v mod 10) as Hlo.
  { apply fontMap_digit_inj; [lia | lia |]. intros i Hi.
    destruct (Hrows_u i Hi) as (b & t & w & Hb & _ & Hw & _ & Hl).
    destruct (Hrows_v i Hi) as (b' & t' & w' & Hb' & _ & Hw' & _ & Hl').
    rewrite Hw, Hw'. congruence. }
  rewrite (Z.div_mod u 10), (Z.div_mod v 10) by lia. congruence.
Qed.

Lemma mapNumber_inj_witness : 7 = 7.
Proof.
  apply (mapNumber_inj (replicate 8 0) (seqZ 1 8) 7 7);
    first [reflexivity | lia].
Defined.

Lemma mapOffset_loop_free (map : list Z) (num : Z) :
  length map = FONT_ROWS -> -128 <= num <= 127 ->
  exists frame,
    mapOffset map num = Some frame
    /\ length frame = FONT_ROWS
    /\ forall i, (i < FONT_ROWS)%nat ->
         exists b s u,
           frame !! i = Some b
           /\ pgm_read_fontMap (if num >=? 0 then 10 else 11) i = Some s
           /\ pgm_read_fontMap (Z.abs num mod 10) i = Some u
           /\ high_nibble b = s
           /\ low_nibble b = u.
Proof.
  intros Hlen Hnum. unfold mapOffset.
  rewrite Z.rem_mod_nonneg by lia.
  pose proof (Z.mod_pos_bound (Z.abs num) 10 ltac:(lia)) as Hlo.
  assert (i8 (Z.abs num mod 10) = Z.abs num mod 10) as ->.
  { unfold i8. rewrite Z.mod_small; lia. }
  apply mapNumber_loop_frame; [destruct (num >=? 0); lia | lia | exact Hlen].
Qed.

(** [mapOffset] stays inside the font table for every [int8_t]: the high
    nibble of each row is the row of '+' for a number from 0 up and of '-'
    below 0, the low nibble that of the last digit of the magnitude. *)
Theorem mapOffset_nibbles (map : list Z) (num : Z) :
  length map = FONT_ROWS -> -128 <= num <= 127 ->
  exists frame,
    mapOffset map num = Some frame
    /\ length frame = FONT_ROWS
    /\ forall i, (i < FONT_ROWS)%nat ->
         exists b s u,
           frame !! i = Some b
           /\ pgm_read_fontMap (if num >=? 0 then 10 else 11) i = Some s
           /\ pgm_read_fontMap (Z.abs num mod 10) i = Some u
           /\ high_nibble b = s
           /\ low_nibble b = u.
Proof. exact (mapOffset_loop_free map num). Qed.

Lemma mapOffset_nibbles_witness :
  exists frame, mapOffset (replicate 8 0) (-128) = Some frame.
Proof.
  destruct (mapOffset_nibbles (replicate 8 0) (-128)) as (frame & Hframe & _);
    [reflexivity | lia |].
  exists frame. exact Hframe.
Defined.

(** ** What reaches the display and when *)

(** [mapShow] replaces the whole display by the buffer: whatever the
    display held, afterwards its rows are the buffer and the refresh is on,
    and every write of the call comes while the refresh is off. *)
Theorem mapShow_replaces (map : list Z) (d : MD_MAX72XX.t) (upd : bool) :
  length map = FONT_ROWS ->
  rows (run (mapShow map) d) = map
  /\ updateEnabled (run (mapShow map) d) = true
  /\ frozen_from upd (mapShow map) = true.
Proof.
  intros Hlen.
  do 9 (destruct map as [| ? map]; try discriminate Hlen).
  repeat split.
Qed.

Lemma mapShow_replaces_witness :
  rows (run (mapShow (seqZ 1 8)) (MD_MAX72XX.mk true [9; 9]))
  = (seqZ 1 8).
Proof.
  apply (mapShow_replaces (seqZ 1 8) (MD_MAX72XX.mk true [9; 9]) true).
  reflexivity.
Defined.

Lemma frozen_word_calls (ws : list clockWord_t) (rest : list call) :
  frozen_from false (word_calls ws ++ rest) = frozen_from false rest.
Proof. induction ws as [| w ws IH]; [reflexivity | exact IH]. Qed.

Lemma updateEnabled_word_calls (ws : list clockWord_t) (d : MD_MAX72XX.t) :
  updateEnabled (run (word_calls ws) d) = updateEnabled d.
Proof.
  revert d. induction ws as [| w ws IH]; intros d; [reflexivity |].
  change (run (word_calls (w :: ws)) d)
    with (run (word_calls ws) (exec (setRow (row w) (data w)) d)).
  rewrite IH. reflexivity.
Qed.

(** The trace of [updateClock] whenever the value switched on is a case of
    the hour switch. *)
Lemma updateClock_trace_of_hour (E : EEPROM) (h m : Z) :
  1 <= currentHour E (adjust_hour h m) <= 12 ->
  exists mw hw,
    (mw ∈ minute_options)
    /\ ((currentHour E (adjust_hour h m), hw) ∈ hour_cases)
    /\ trace (minute_words m) = Some (word_calls mw)
    /\ trace (updateClock E h m)
       = Some ([control_UPDATE false; clear]
               ++ word_calls (mw ++ past_to_list m ++ hw)
               ++ [control_UPDATE true]).
Proof.
  intros Hv.
  destruct (minute_words_trace m) as (mw & Hmw & Hopt).
  destruct (switch_hour_case _ Hv) as (hw & Hin & Hsw & _).
  exists mw, hw. repeat split; try assumption.
  unfold updateClock. rewrite Hsw.
  rewrite !trace_seq, !trace_emit, Hmw, past_to_words_trace, hour_words_trace.
  cbn [mbind option_bind]. unfold word_calls. rewrite !fmap_app.
  f_equal. cbn [app]. rewrite <- !app_assoc. reflexivity.
Qed.

(** [updateClock] freezes the display while it changes it: on a valid time
    every [clear()] and [setRow()] comes while the refresh is off, and the
    call leaves the refresh on. *)
Theorem updateClock_frozen (E : EEPROM) (h m : Z) (d : MD_MAX72XX.t) (upd : bool) :
  1 <= h <= 12 ->
  exists tr,
    trace (updateClock E h m) = Some tr
    /\ frozen_from upd tr = true
    /\ updateEnabled (run tr d) = true.
Proof.
  intros Hh.
  destruct (updateClock_trace_of_hour E h m (hour_value_range E h m Hh))
    as (mw & hw & _ & _ & _ & Htr).
  eexists. split; [exact Htr |]. split.
  - cbn [app frozen_from]. rewrite frozen_word_calls. reflexivity.
  - rewrite !run_app. reflexivity.
Qed.

Lemma updateClock_frozen_witness :
  exists tr,
    trace (updateClock (fun _ => 0) 3 17) = Some tr /\ frozen_from true tr = true.
Proof.
  destruct (updateClock_frozen (fun _ => 0) 3 17 (MD_MAX72XX.mk true []) true)
    as (tr & Htr & Hfrozen & _); [lia |].
  exists tr. split; assumption.
Defined.

(** ** updateClock on every byte *)

Lemma currentHour_byte (E : EEPROM) (h : Z) :
  0 <= h <= 255 ->
  0 <= currentHour E h <= 12
  /\ (currentHour E h = 0 <->
      (isSummerMode E = false /\ h = 0) \/ (isSummerMode E = true /\ h = 255)).
Proof.
  intros Hh. unfold currentHour, u8.
  destruct (isSummerMode E).
  - destruct (Z.eq_dec h 255) as [-> | Hne].
    + change ((255 + 1) mod 256) with 0. change (0 >? 12) with false.
      cbv iota. split; [lia |]. split; auto.
    + rewrite Z.mod_small by lia.
      destruct (Z.gtb_spec (h + 1) 12); (split; [lia |]);
        (split; [lia | intros [[? ?] | [_ ?]]; [discriminate | lia]]).
  - rewrite Z.add_0_r, Z.mod_small by lia.
    destruct (Z.gtb_spec h 12); (split; [lia |]);
      (split; [intros; left; split; [reflexivity | lia]
              | intros [[_ ?] | [? ?]]; [lia | discriminate]]).
Qed.

Lemma adjust_hour_byte (h m : Z) :
  0 <= h <= 255 ->
  0 <= adjust_hour h m <= 255
  /\ (m <= 32 -> adjust_hour h m = h)
  /\ (32 < m -> 1 <= adjust_hour h m <= 12).
Proof.
  intros Hh. unfold adjust_hour, POST_DELTA. change (30 + 2) with 32.
  destruct (Z.gtb_spec m 32).
  - destruct (Z.ltb_spec h 12).
    + rewrite u8_small by lia. lia.
    + lia.
  - lia.
Qed.

Lemma updateClock_uninitialised (E : EEPROM) (h m : Z) :
  currentHour E (adjust_hour h m) = 0 -> updateClock E h m = None.
Proof.
  intros Hv.
  assert (trace (updateClock E h m) = None) as Htr.
  { unfold updateClock. rewrite Hv. cbn [switch_hour].
    rewrite !trace_seq, !trace_emit, past_to_words_trace.
    destruct (minute_words_trace m) as (mw & -> & _). reflexivity. }
  unfold trace in Htr. destruct (updateClock E h m); [discriminate | reflexivity].
Qed.

(** [updateClock] on any two bytes reads the uninitialised [H] and
    [numElements] in exactly one situation: a minute up to 32 with hour 0
    and the summer flag clear, or with hour 255 and the flag set.  On every
    other input one of the twelve cases matches. *)
Theorem updateClock_wrong_iff (E : EEPROM) (h m : Z) :
  0 <= h <= 255 -> 0 <= m <= 255 ->
  (updateClock E h m = None <->
   m <= 32 /\ ((isSummerMode E = false /\ h = 0) \/ (isSummerMode E = true /\ h = 255))).
Proof.
  intros Hh Hm.
  destruct (adjust_hour_byte h m Hh) as (Hbyte & Hpast & Hto).
  destruct (currentHour_byte E (adjust_hour h m) Hbyte) as (Hrange & Hzero).
  split.
  - intros Hwrong.
    destruct (Z.eq_dec (currentHour E (adjust_hour h m)) 0) as [H0 | Hpos].
    + apply Hzero in H0.
      destruct (Z_le_gt_dec m 32) as [Hle | Hgt].
      * rewrite (Hpast Hle) in H0. auto.
      * specialize (Hto ltac:(lia)). destruct H0 as [[_ ?] | [_ ?]]; lia.
    + exfalso.
      destruct (updateClock_trace_of_hour E h m ltac:(lia)) as (mw & hw & _ & _ & _ & Htr).
      rewrite Hwrong in Htr. discriminate.
  - intros [Hle Hcase]. apply updateClock_uninitialised, Hzero.
    rewrite (Hpast Hle). exact Hcase.
Qed.

Lemma updateClock_wrong_iff_witness :
  updateClock (fun _ => 1) 255 32 = None.
Proof.
  apply (proj2 (updateClock_wrong_iff (fun _ => 1) 255 32 ltac:(lia) ltac:(lia))).
  split; [lia | right; split; reflexivity].
Defined.

(** ** The words of one render *)

Lemma words_layout_cases (mw pw hw : list clockWord_t) (v : Z) :
  mw ∈ minute_options -> pw ∈ [[]; [PAST]; [TO]] -> (v, hw) ∈ hour_cases ->
  Forall (fun w => 0 <= row w <= 2) mw
  /\ Forall (fun w => row w = 3) pw
  /\ Forall (fun w => 4 <= row w <= 7) hw
  /\ Forall (fun w => 1 <= data w <= 255) (mw ++ pw ++ hw)
  /\ NoDup (row <$> mw ++ pw ++ hw).
Proof.
  intros Hmw Hpw Hhw. unfold minute_options in Hmw. unfold hour_cases in Hhw.
  cases_in Hmw; cases_in Hpw; cases_in Hhw; simplify_eq; compute_done.
Qed.

(** The face is laid out in bands: on a valid time the minute words go to
    rows 0-2, PAST or TO to row 3 and the hour words to rows 4-7; every
    word lights at least one LED of its row, and no two words of a render
    target the same row, so no [setRow] overwrites another. *)
Theorem words_layout (E : EEPROM) (h m : Z) :
  1 <= h <= 12 ->
  exists mw hw,
    trace (updateClock E h m)
    = Some ([control_UPDATE false; clear]
            ++ word_calls (mw ++ past_to_list m ++ hw)
            ++ [control_UPDATE true])
    /\ Forall (fun w => 0 <= row w <= 2) mw
    /\ Forall (fun w => row w = 3) (past_to_list m)
    /\ Forall (fun w => 4 <= row w <= 7) hw
    /\ Forall (fun w => 1 <= data w <= 255) (mw ++ past_to_list m ++ hw)
    /\ NoDup (row <$> mw ++ past_to_list m ++ hw).
Proof.
  intros Hh.
  destruct (updateClock_trace_of_hour E h m (hour_value_range E h m Hh))
    as (mw & hw & Hmw & Hhw & _ & Htr).
  exists mw, hw. split; [exact Htr |].
  exact (words_layout_cases mw (past_to_list m) hw _ Hmw (past_to_list_options m) Hhw).
Qed.

Lemma words_layout_witness :
  exists mw hw,
    trace (updateClock (fun _ => 0) 10 25)
    = Some ([control_UPDATE false; clear]
            ++ word_calls (mw ++ past_to_list 25 ++ hw)
            ++ [control_UPDATE true])
    /\ NoDup (row <$> mw ++ past_to_list 25 ++ hw).
Proof.
  destruct (words_layout (fun _ => 0) 10 25) as (mw & hw & Htr & _ & _ & _ & _ & Hnd);
    [lia |].
  exists mw, hw. split; assumption.
Defined.

Lemma mirror_check_all : forallb mirror_check (seqZ 1 59) = true.
Proof. vm_compute. reflexivity. Qed.

(** The minute words are mirrored around the half hour: minutes [m] and
    [60 - m] make the minute switch write the same words, and for [m] in
    3..27 [updateClock] writes those words, not none, with PAST at [m] and
    with TO at [60 - m]. *)
Theorem minute_words_mirror (E : EEPROM) (h m : Z) :
  1 <= h <= 12 -> 1 <= m <= 59 ->
  minute_words m = minute_words (60 - m)
  /\ (3 <= m <= 27 ->
      past_to_words m = setWord PAST
      /\ past_to_words (60 - m) = setWord TO
      /\ exists mw hw hw',
           mw <> []
           /\ trace (updateClock E h m)
              = Some ([control_UPDATE false; clear]
                      ++ word_calls (mw ++ [PAST] ++ hw)
                      ++ [control_UPDATE true])
           /\ trace (updateClock E h (60 - m))
              = Some ([control_UPDATE false; clear]
                      ++ word_calls (mw ++ [TO] ++ hw')
                      ++ [control_UPDATE true])).
Proof.
  intros Hh Hm.
  pose proof (forallb_seqZ mirror_check 1 59 mirror_check_all m ltac:(lia)) as Hcheck.
  unfold mirror_check in Hcheck.
  apply andb_true_iff in Hcheck as [Hsame Hside].
  apply bool_decide_eq_true in Hsame. split; [exact Hsame |].
  intros Hband.
  destruct (Z.ltb_spec m 3); [lia |]. destruct (Z.ltb_spec 27 m); [lia |].
  cbn [orb] in Hside.
  apply andb_true_iff in Hside as [Hside Hsome].
  apply andb_true_iff in Hside as [Hpast Hto].
  apply bool_decide_eq_true in Hpast, Hto.
  apply negb_true_iff, bool_decide_eq_false in Hsome.
  split; [exact Hpast |]. split; [exact Hto |].
  destruct (updateClock_trace_of_hour E h m (hour_value_range E h m Hh))
    as (mw & hw & _ & _ & Hmin & Htr).
  destruct (updateClock_trace_of_hour E h (60 - m) (hour_value_range E h (60 - m) Hh))
    as (mw' & hw' & _ & _ & Hmin' & Htr').
  assert (mw' = mw) as ->.
  { rewrite <- Hsame, Hmin in Hmin'. injection Hmin' as Heq.
    rewrite <- (spans_of_word_calls mw), <- (spans_of_word_calls mw'), Heq.
    reflexivity. }
  assert (past_to_list m = [PAST]) as Hl.
  { pose proof (past_to_words_trace m) as Hp. rewrite Hpast in Hp.
    injection Hp as Hp.
    rewrite <- (spans_of_word_calls (past_to_list m)), <- Hp. reflexivity. }
  assert (past_to_list (60 - m) = [TO]) as Hl'.
  { pose proof (past_to_words_trace (60 - m)) as Hp. rewrite Hto in Hp.
    injection Hp as Hp.
    rewrite <- (spans_of_word_calls (past_to_list (60 - m))), <- Hp. reflexivity. }
  rewrite Hl in Htr. rewrite Hl' in Htr'.
  exists mw, hw, hw'. split; [| split; assumption].
  intros ->. apply Hsome. exact Hmin.
Qed.

Lemma minute_words_mirror_witness :
  minute_words 12 = minute_words (60 - 12)
  /\ past_to_words 12 = setWord PAST
  /\ past_to_words (60 - 12) = setWord TO.
Proof.
  destruct (minute_words_mirror (fun _ => 0) 4 12) as (Hsame & Hband); [lia | lia |].
  destruct Hband as (Hpast & Hto & _); [lia |].
  split; [exact Hsame |]. split; [exact Hpast | exact Hto].
Defined.

(** ** Timeouts and the wrap of millis() *)

(** The timeout test survives the wrap of [millis()]: [d] milliseconds
    after the last activity, counted modulo [2^32], the test fires exactly
    when [d] has reached [SETUP_TIMEOUT]. *)
Theorem timed_out_wraps (timeLastActivity d : Z) :
  0 <= timeLastActivity < 2 ^ 32 -> 0 <= d < 2 ^ 32 ->
  timed_out timeLastActivity (u32 (timeLastActivity + d)) = (d >=? SETUP_TIMEOUT).
Proof.
  intros Ht Hd. unfold timed_out, u32.
  rewrite Zminus_mod_idemp_l.
  replace (timeLastActivity + d - timeLastActivity) with d by lia.
  rewrite Z.mod_small by exact Hd. reflexivity.
Qed.

Lemma timed_out_wraps_witness :
  timed_out (2 ^ 32 - 1) (u32 (2 ^ 32 - 1 + 9999)) = false.
Proof.
  apply (timed_out_wraps (2 ^ 32 - 1) 9999); lia.
Defined.

(** ** setupTime on any sequence of polls *)

Lemma next_hour_range (h : Z) : 1 <= h <= 12 -> 1 <= next_hour h <= 12.
Proof.
  intros Hh. rewrite next_hour_cycle by lia.
  pose proof (Z.mod_pos_bound h 12 ltac:(lia)). lia.
Qed.

Lemma next_minute_range (m : Z) : 0 <= m <= 59 -> 0 <= next_minute m <= 59.
Proof.
  intros Hm. unfold next_minute.
  pose proof (Z.mod_pos_bound (m + 1) 60 ltac:(lia)).
  rewrite u8_small; lia.
Qed.

Lemma setup_iter_inv (E : EEPROM) (p : poll) (st : setup_t) :
  setup_inv st -> exists st', setup_iter E p st = Some st' /\ setup_inv st'.
Proof.
  destruct st as [state h m tla map clock].
  unfold setup_inv, valid_time. cbn [st_h st_m st_map]. intros [[Hh Hm] Hlen].
  pose proof (next_hour_range h Hh) as Hnh.
  pose proof (next_minute_range m Hm) as Hnm.
  pose proof (currentHour_range E h Hh) as Hc.
  destruct (mapNumber_frame map (currentHour E h) Hlen) as (fh & Hfh & Hlh & _); [lia |].
  destruct (mapNumber_frame map m Hlen) as (fm & Hfm & Hlm & _); [lia |].
  unfold setup_iter. fold (next_hour h). fold (next_minute m).
  destruct (timed_out tla (millis_loop p)); [eauto 10 |].
  destruct state; try rewrite Hfh; try rewrite Hfm; cbn [mbind option_bind];
    try destruct (sw_read p); eauto 10.
Qed.

Lemma setupTime_loop_inv (E : EEPROM) (ps : list poll) :
  forall st, setup_inv st ->
    exists st', setupTime_loop E ps st = Some st' /\ setup_inv st'.
Proof.
  induction ps as [| p ps IH]; intros st Hinv.
  - exists st. split; [destruct st as [[] ? ? ? ? ?]; reflexivity | exact Hinv].
  - destruct (st_state st) eqn:Hstate;
      try (destruct (setup_iter_inv E p st Hinv) as (st1 & Hiter & Hinv1);
           destruct (IH st1 Hinv1) as (st' & Hrun & Hinv');
           exists st'; split; [| exact Hinv'];
           cbn [setupTime_loop]; rewrite Hstate, Hiter; exact Hrun).
    exists st. split; [cbn [setupTime_loop]; rewrite Hstate; reflexivity | exact Hinv].
Qed.

(** Whatever the switch and [millis()] return, [setupTime] entered on a
    valid time never reads past the font table and keeps the hour in 1..12
    and the minute in 0..59. *)
Theorem setupTime_keeps_time_valid (E : EEPROM) (t0 : Z) (map : list Z)
    (clock : MD_MAX72XX.t) (h m : Z) (ps : list poll) :
  valid_time h m -> length map = FONT_ROWS ->
  exists st',
    setupTime E t0 map clock h m ps = Some st'
    /\ valid_time (st_h st') (st_m st').
Proof.
  intros Hvalid Hlen.
  destruct (setupTime_loop_inv E ps (mkSetup SS_DISP_HOUR h m t0 map clock))
    as (st' & Hrun & Hinv & _); [split; assumption |].
  exists st'. split; [exact Hrun | exact Hinv].
Qed.

Lemma setupTime_keeps_time_valid_witness :
  exists st',
    setupTime (fun _ => 1) 0 (replicate 8 0) (MD_MAX72XX.mk true [])
      12 59 [mkPoll 1 KS_NULL 1; mkPoll 2 KS_PRESS 2; mkPoll 3 KS_LONGPRESS 3]
    = Some st'
    /\ valid_time (st_h st') (st_m st').
Proof.
  apply (setupTime_keeps_time_valid (fun _ => 1) 0 (replicate 8 0)
           (MD_MAX72XX.mk true []) 12 59);
    [unfold valid_time; lia | reflexivity].
Defined.

Lemma setupTime_loop_end (E : EEPROM) (ps : list poll) (st : setup_t) :
  st_state st = SS_END -> setupTime_loop E ps st = Some st.
Proof. intros Hend. destruct ps; cbn [setupTime_loop]; rewrite Hend; reflexivity. Qed.

(** The inactivity timeout: a pass that starts [SETUP_TIMEOUT] or more
    after the last activity ends [setupTime] from any state, without
    reading the switch or drawing, and with the hour and the minute as
    edited so far. *)
Theorem setupTime_timeout (E : EEPROM) (p : poll) (ps : list poll) (st : setup_t) :
  st_state st <> SS_END ->
  timed_out (st_timeLastActivity st) (millis_loop p) = true ->
  setupTime_loop E (p :: ps) st
  = Some (mkSetup SS_END (st_h st) (st_m st) (st_timeLastActivity st)
                  (st_map st) (st_clock st)).
Proof.
  intros Hstate Hout. destruct st as [state h m tla map clock].
  cbn [st_state st_h st_m st_timeLastActivity st_map st_clock] in *.
  assert (setup_iter E p (mkSetup state h m tla map clock)
          = Some (mkSetup SS_END h m tla map clock)) as Hiter.
  { unfold setup_iter. rewrite Hout. reflexivity. }
  destruct state; try congruence;
    cbn [setupTime_loop st_state]; rewrite Hiter; cbn [mbind option_bind];
    apply setupTime_loop_end; reflexivity.
Qed.

Lemma setupTime_timeout_witness :
  setupTime_loop (fun _ => 0) [mkPoll 10000 KS_PRESS 10000]
    (mkSetup SS_HOUR 7 15 0 [] (MD_MAX72XX.mk true []))
  = Some (mkSetup SS_END 7 15 0 [] (MD_MAX72XX.mk true [])).
Proof.
  apply (setupTime_timeout (fun _ => 0) (mkPoll 10000 KS_PRESS 10000) []
           (mkSetup SS_HOUR 7 15 0 [] (MD_MAX72XX.mk true [])));
    [discriminate | reflexivity].
Defined.

Lemma setup_iter_no_press (E : EEPROM) (p : poll) (st st' : setup_t) :
  sw_read p <> KS_PRESS -> setup_iter E p st = Some st' ->
  st_h st' = st_h st /\ st_m st' = st_m st.
Proof.
  intros Hkey. destruct st as [state h m tla map clock]. unfold setup_iter.
  destruct (timed_out tla (millis_loop p)).
  - intros [= <-]. auto.
  - destruct state.
    + destruct (mapNumber map (currentHour E h)); cbn [mbind option_bind];
        [intros [= <-]; auto | discriminate].
    + destruct (sw_read p); try congruence; intros [= <-]; auto.
    + destruct (mapNumber map m); cbn [mbind option_bind];
        [intros [= <-]; auto | discriminate].
    + destruct (sw_read p); try congruence; intros [= <-]; auto.
    + intros [= <-]. auto.
Qed.

Lemma setupTime_loop_no_press (E : EEPROM) (ps : list poll) :
  Forall (fun p => sw_read p <> KS_PRESS) ps ->
  forall st st', setupTime_loop E ps st = Some st' ->
    st_h st' = st_h st /\ st_m st' = st_m st.
Proof.
  induction 1 as [| p ps Hp Hps IH]; intros st st' Hrun.
  - destruct st as [[] ? ? ? ? ?]; cbn in Hrun; injection Hrun as <-; auto.
  - destruct (st_state st) eqn:Hstate;
      cbn [setupTime_loop] in Hrun; rewrite Hstate in Hrun;
      try (destruct (setup_iter E p st) as [st1 |] eqn:Hiter;
           cbn [mbind option_bind] in Hrun; [| discriminate];
           destruct (setup_iter_no_press E p st st1 Hp Hiter) as [Hh1 Hm1];
           destruct (IH st1 st' Hrun) as [Hh' Hm']; split; congruence).
    injection Hrun as <-. auto.
Qed.

(** Only single clicks change the time: when no pass reads [KS_PRESS],
    [setupTime] hands back the hour and the minute it was given, however it
    ends. *)
Theorem setupTime_no_press (E : EEPROM) (t0 : Z) (map : list Z)
    (clock : MD_MAX72XX.t) (h m : Z) (ps : list poll) :
  valid_time h m -> length map = FONT_ROWS ->
  Forall (fun p => sw_read p <> KS_PRESS) ps ->
  exists st',
    setupTime E t0 map clock h m ps = Some st' /\ st_h st' = h /\ st_m st' = m.
Proof.
  intros Hvalid Hlen Hkeys.
  destruct (setupTime_loop_inv E ps (mkSetup SS_DISP_HOUR h m t0 map clock))
    as (st' & Hrun & _); [split; assumption |].
  exists st'. split; [exact Hrun |].
  exact (setupTime_loop_no_press E ps Hkeys _ _ Hrun).
Qed.

Lemma setupTime_no_press_witness :
  exists st',
    setupTime (fun _ => 0) 0 (replicate 8 0) (MD_MAX72XX.mk true [])
      4 20 [mkPoll 1 KS_NULL 1; mkPoll 2 KS_DPRESS 2; mkPoll 3 KS_NULL 3;
            mkPoll 4 KS_DPRESS 4]
    = Some st' /\ st_h st' = 4 /\ st_m st' = 20.
Proof.
  apply (setupTime_no_press (fun _ => 0) 0 (replicate 8 0)
           (MD_MAX72XX.mk true []) 4 20);
    [unfold valid_time; lia | reflexivity |].
  repeat constructor; discriminate.
Defined.

(** ** A whole session of setupTime *)

Lemma setupTime_loop_step (E : EEPROM) (p : poll) (ps : list poll) (st : setup_t) :
  st_state st <> SS_END ->
  setupTime_loop E (p :: ps) st = st' ← setup_iter E p st; setupTime_loop E ps st'.
Proof. intros Hstate. cbn [setupTime_loop]. destruct (st_state st); congruence. Qed.

Lemma setupTime_loop_app (E : EEPROM) (ps1 ps2 : list poll) :
  forall st,
    setupTime_loop E (ps1 ++ ps2) st
    = st1 ← setupTime_loop E ps1 st; setupTime_loop E ps2 st1.
Proof.
  induction ps1 as [| p ps1 IH]; intros st.
  - cbn [app]. destruct (st_state st) eqn:Hstate;
      cbn [setupTime_loop]; rewrite Hstate; reflexivity.
  - assert (st_state st = SS_END \/ st_state st <> SS_END) as [Hend | Hrun]
      by (destruct (st_state st); auto; right; discriminate).
    + rewrite !setupTime_loop_end by exact Hend. cbn [mbind option_bind].
      symmetry. apply setupTime_loop_end, Hend.
    + cbn [app]. rewrite !setupTime_loop_step by exact Hrun.
      destruct (setup_iter E p st) as [st1 |]; [| reflexivity].
      cbn [mbind option_bind]. apply IH.
Qed.

Lemma setup_iter_dpress_hour (E : EEPROM) (p : poll) (st : setup_t) :
  st_state st = SS_HOUR -> sw_read p = KS_DPRESS ->
  timed_out (st_timeLastActivity st) (millis_loop p) = false ->
  setup_iter E p st
  = Some (mkSetup SS_DISP_MIN (st_h st) (st_m st) (millis_key p) (st_map st) (st_clock st)).
Proof.
  destruct st as [state h m tla map clock]. cbn. intros -> Hkey Halive.
  unfold setup_iter. rewrite Halive, Hkey. reflexivity.
Qed.

Lemma setup_iter_dpress_min (E : EEPROM) (p : poll) (st : setup_t) :
  st_state st = SS_MIN -> sw_read p = KS_DPRESS ->
  timed_out (st_timeLastActivity st) (millis_loop p) = false ->
  setup_iter E p st
  = Some (mkSetup SS_END (st_h st) (st_m st) (millis_key p) (st_map st) (st_clock st)).
Proof.
  destruct st as [state h m tla map clock]. cbn. intros -> Hkey Halive.
  unfold setup_iter. rewrite Halive, Hkey. reflexivity.
Qed.

(** After a run of single clicks the last activity is the last click. *)
Lemma clicks_last_activity (E : EEPROM) (cs : list (poll * poll)) :
  forall st st',
    st_state st = SS_HOUR \/ st_state st = SS_MIN ->
    single_clicks (st_timeLastActivity st) cs = true ->
    setupTime_loop E (polls_of cs) st = Some st' ->
    st_timeLastActivity st' = last_activity (st_timeLastActivity st) cs.
Proof.
  induction cs as [| [p q] cs IH]; intros st st' Hstate Hcs Hrun.
  - cbn in Hrun. destruct Hstate as [Hs | Hs]; rewrite Hs in Hrun;
      injection Hrun as <-; reflexivity.
  - apply single_clicks_cons in Hcs as (Hpress & Hp & Hq & Hrest).
    destruct st as [state h m tla map clock].
    cbn [st_state st_timeLastActivity] in *.
    change (last_activity tla ((p, q) :: cs)) with (last_activity (millis_key p) cs).
    cbn [polls_of flat_map app fst snd] in Hrun. fold (polls_of cs) in Hrun.
    destruct Hstate as [-> | ->].
    + rewrite setupTime_loop_step in Hrun by discriminate.
      assert (setup_iter E p (mkSetup SS_HOUR h m tla map clock)
              = Some (mkSetup SS_DISP_HOUR (next_hour h) m (millis_key p) map clock))
        as Hiter by (unfold setup_iter; rewrite Hp, Hpress; reflexivity).
      rewrite Hiter in Hrun. cbn [mbind option_bind] in Hrun.
      rewrite setupTime_loop_step in Hrun by discriminate.
      unfold setup_iter in Hrun. rewrite Hq in Hrun.
      destruct (mapNumber map (currentHour E (next_hour h))) as [frame |];
        cbn [mbind option_bind] in Hrun; [| discriminate].
      match type of Hrun with
      | setupTime_loop _ _ ?s = _ =>
          apply (IH s st'); [left; reflexivity | exact Hrest | exact Hrun]
      end.
    + rewrite setupTime_loop_step in Hrun by discriminate.
      assert (setup_iter E p (mkSetup SS_MIN h m tla map clock)
              = Some (mkSetup SS_DISP_MIN h (next_minute m) (millis_key p) map
                              (run (mapShow map) clock)))
        as Hiter by (unfold setup_iter; rewrite Hp, Hpress; reflexivity).
      rewrite Hiter in Hrun. cbn [mbind option_bind] in Hrun.
      rewrite setupTime_loop_step in Hrun by discriminate.
      unfold setup_iter in Hrun. rewrite Hq in Hrun.
      destruct (mapNumber map (next_minute m)) as [frame |];
        cbn [mbind option_bind] in Hrun; [| discriminate].
      match type of Hrun with
      | setupTime_loop _ _ ?s = _ =>
          apply (IH s st'); [right; reflexivity | exact Hrest | exact Hrun]
      end.
Qed.

(** A whole session: the pass that shows the hour, [a] single clicks, a
    double click, the pass that shows the minute, [b] single clicks and a
    double click, no pass as late as the timeout.  [setupTime] ends with the
    hour moved [a] steps round 1..12 and the minute [b] steps round 0..59. *)
Theorem setupTime_session (E : EEPROM) (t0 : Z) (map : list Z) (clock : MD_MAX72XX.t)
    (h m : Z) (p0 pd q0 pe : poll) (csH csM : list (poll * poll)) :
  valid_time h m -> length map = FONT_ROWS ->
  timed_out t0 (millis_loop p0) = false ->
  single_clicks t0 csH = true ->
  sw_read pd = KS_DPRESS ->
  timed_out (last_activity t0 csH) (millis_loop pd) = false ->
  timed_out (millis_key pd) (millis_loop q0) = false ->
  single_clicks (millis_key pd) csM = true ->
  sw_read pe = KS_DPRESS ->
  timed_out (last_activity (millis_key pd) csM) (millis_loop pe) = false ->
  exists st',
    setupTime E t0 map clock h m
      (p0 :: polls_of csH ++ pd :: q0 :: polls_of csM ++ [pe]) = Some st'
    /\ st_state st' = SS_END
    /\ st_h st' = (h - 1 + Z.of_nat (length csH)) mod 12 + 1
    /\ st_m st' = (m + Z.of_nat (length csM)) mod 60.
Proof.
  intros [Hh Hm] Hlen Hp0 HcsH Hpd Hpd_alive Hq0 HcsM Hpe Hpe_alive.
  unfold setupTime.
  (* the pass that shows the hour *)
  destruct (setup_iter_disp_hour E p0 (mkSetup SS_DISP_HOUR h m t0 map clock))
    as (f1 & _ & Hlen1 & Hiter1); try assumption; try reflexivity.
  rewrite setupTime_loop_step, Hiter1 by discriminate.
  cbn [mbind option_bind st_h st_m st_timeLastActivity st_clock].
  set (st1 := mkSetup SS_HOUR h m t0 f1 (run (mapShow f1) clock)).
  (* the single clicks on the hour *)
  rewrite setupTime_loop_app.
  destruct (hour_clicks_run E csH st1) as (st2 & Hrun2 & Hstate2 & Hh2 & Hm2);
    try assumption; try reflexivity.
  destruct (setupTime_loop_inv E (polls_of csH) st1) as (st2' & Hrun2' & Hinv2).
  { split; [split; assumption | exact Hlen1]. }
  rewrite Hrun2 in Hrun2'. injection Hrun2' as <-.
  pose proof (clicks_last_activity E csH st1 st2 (or_introl eq_refl) HcsH Hrun2) as Htla2.
  rewrite Hrun2. cbn [mbind option_bind].
  cbn [st1 st_h st_m st_timeLastActivity] in Hh2, Hm2, Htla2.
  destruct Hinv2 as [[Hh2r Hm2r] Hlen2].
  (* the double click and the pass that shows the minute *)
  rewrite setupTime_loop_step by (rewrite Hstate2; discriminate).
  rewrite (setup_iter_dpress_hour E pd st2 Hstate2 Hpd) by (rewrite Htla2; exact Hpd_alive).
  cbn [mbind option_bind].
  destruct (setup_iter_disp_min E q0
              (mkSetup SS_DISP_MIN (st_h st2) (st_m st2) (millis_key pd)
                       (st_map st2) (st_clock st2)))
    as (f3 & _ & Hlen3 & Hiter3); try assumption; try reflexivity.
  rewrite setupTime_loop_step, Hiter3 by discriminate.
  cbn [mbind option_bind st_h st_m st_timeLastActivity st_clock].
  set (st4 := mkSetup SS_MIN (st_h st2) (st_m st2) (millis_key pd) f3
                      (run (mapShow f3) (st_clock st2))).
  (* the single clicks on the minute *)
  rewrite setupTime_loop_app.
  destruct (minute_clicks_run E csM st4) as (st5 & Hrun5 & Hstate5 & Hm5 & Hh5);
    try assumption; try reflexivity.
  pose proof (clicks_last_activity E csM st4 st5 (or_intror eq_refl) HcsM Hrun5) as Htla5.
  rewrite Hrun5. cbn [mbind option_bind].
  cbn [st4 st_h st_m st_timeLastActivity] in Hh5, Hm5, Htla5.
  (* the closing double click *)
  rewrite setupTime_loop_step by (rewrite Hstate5; discriminate).
  rewrite (setup_iter_dpress_min E pe st5 Hstate5 Hpe) by (rewrite Htla5; exact Hpe_alive).
  cbn [mbind option_bind setupTime_loop st_state].
  eexists. split; [reflexivity |]. cbn [st_state st_h st_m].
  split; [reflexivity |].
  rewrite Hh5, Hh2, Hm5, Hm2, next_hour_iter, next_minute_iter by assumption.
  split; reflexivity.
Qed.

Lemma setupTime_session_witness :
  exists st',
    setupTime (fun _ => 0) 0 (replicate 8 0) (MD_MAX72XX.mk true []) 11 58
      (mkPoll 0 KS_NULL 0
       :: polls_of (replicate 2 (mkPoll 5 KS_PRESS 5, mkPoll 5 KS_NULL 5))
       ++ mkPoll 6 KS_DPRESS 6
       :: mkPoll 6 KS_NULL 6
       :: polls_of (replicate 3 (mkPoll 7 KS_PRESS 7, mkPoll 7 KS_NULL 7))
       ++ [mkPoll 8 KS_DPRESS 8])
    = Some st'
    /\ st_state st' = SS_END /\ st_h st' = 1 /\ st_m st' = 1.
Proof.
  apply (setupTime_session (fun _ => 0) 0 (replicate 8 0)
           (MD_MAX72XX.mk true []) 11 58
           (mkPoll 0 KS_NULL 0) (mkPoll 6 KS_DPRESS 6) (mkPoll 6 KS_NULL 6)
           (mkPoll 8 KS_DPRESS 8)
           (replicate 2 (mkPoll 5 KS_PRESS 5, mkPoll 5 KS_NULL 5))
           (replicate 3 (mkPoll 7 KS_PRESS 7, mkPoll 7 KS_NULL 7)));
    first [vm_compute; reflexivity | unfold valid_time; lia].
Defined.

(** ** flipSummerMode and showTime *)

Lemma isSummerMode_write (E : EEPROM) (v : Z) :
  0 <= v <= 255 ->
  isSummerMode (EEPROM_write E EE_SUMMER_FLAG v) = negb (v =? 0).
Proof.
  intros Hv. unfold isSummerMode, EEPROM_write.
  rewrite Z.eqb_refl, u8_small by lia. reflexivity.
Qed.

Lemma flipSummerMode_effect (E : EEPROM) (map : list Z) :
  length map = FONT_ROWS ->
  isSummerMode (flipSummerMode E map).1 = negb (isSummerMode E)
  /\ (flipSummerMode E map).1 EE_SUMMER_FLAG = (if isSummerMode E then 0 else 1)
  /\ (forall a, a <> EE_SUMMER_FLAG -> (flipSummerMode E map).1 a = E a)
  /\ exists frame,
       trace (flipSummerMode E map).2 = Some (mapShow frame)
       /\ length frame = FONT_ROWS
       /\ forall i, (i < FONT_ROWS)%nat ->
            exists b s u,
              frame !! i = Some b
              /\ pgm_read_fontMap 10 i = Some s
              /\ pgm_read_fontMap (if isSummerMode E then 0 else 1) i = Some u
              /\ high_nibble b = s
              /\ low_nibble b = u.
Proof.
  intros Hlen. unfold flipSummerMode. cbn [fst snd].
  assert (isSummerMode
            (EEPROM_write E EE_SUMMER_FLAG (if isSummerMode E then 0 else 1))
          = negb (isSummerMode E)) as Hflip.
  { rewrite isSummerMode_write by (destruct (isSummerMode E); lia).
    destruct (isSummerMode E); reflexivity. }
  split; [exact Hflip |]. split.
  { unfold EEPROM_write. rewrite Z.eqb_refl. destruct (isSummerMode E); reflexivity. }
  split.
  { intros a Ha. unfold EEPROM_write.
    destruct (Z.eqb_spec a EE_SUMMER_FLAG); [contradiction | reflexivity]. }
  rewrite Hflip.
  destruct (mapOffset_loop_free map (if negb (isSummerMode E) then 1 else 0) Hlen)
    as (frame & Hframe & Hlen' & Hrows); [destruct (isSummerMode E); cbn; lia |].
  exists frame. rewrite Hframe. split; [reflexivity |]. split; [exact Hlen' |].
  intros i Hi. destruct (Hrows i Hi) as (b & s & u & Hb & Hs & Hu & Hh & Hl).
  exists b, s, u. destruct (isSummerMode E); cbn in *; auto.
Qed.

(** A long press toggles the summer mode: [flipSummerMode] inverts what
    [isSummerMode] answers, stores 1 or 0 at [EE_SUMMER_FLAG] and leaves
    every other EEPROM cell alone; it then shows '+' beside the digit 1 when
    the mode is now on and beside 0 when it is off, never '-'. *)
Theorem flipSummerMode_toggles (E : EEPROM) (map : list Z) :
  length map = FONT_ROWS ->
  isSummerMode (flipSummerMode E map).1 = negb (isSummerMode E)
  /\ (flipSummerMode E map).1 EE_SUMMER_FLAG = (if isSummerMode E then 0 else 1)
  /\ (forall a, a <> EE_SUMMER_FLAG -> (flipSummerMode E map).1 a = E a)
  /\ exists frame,
       trace (flipSummerMode E map).2 = Some (mapShow frame)
       /\ length frame = FONT_ROWS
       /\ forall i, (i < FONT_ROWS)%nat ->
            exists b s u,
              frame !! i = Some b
              /\ pgm_read_fontMap 10 i = Some s
              /\ pgm_read_fontMap (if isSummerMode E then 0 else 1) i = Some u
              /\ high_nibble b = s
              /\ low_nibble b = u.
Proof. exact (flipSummerMode_effect E map). Qed.

Lemma flipSummerMode_toggles_witness :
  isSummerMode (flipSummerMode (fun _ => 7) (replicate 8 0)).1 = false
  /\ (flipSummerMode (fun _ => 7) (replicate 8 0)).1 EE_SUMMER_FLAG = 0.
Proof.
  destruct (flipSummerMode_toggles (fun _ => 7) (replicate 8 0) eq_refl)
    as (Hflag & Hcell & _).
  split; [exact Hflag | exact Hcell].
Defined.

Lemma updateClock_flag (E1 E2 : EEPROM) (h m : Z) :
  isSummerMode E1 = isSummerMode E2 -> updateClock E1 h m = updateClock E2 h m.
Proof. intros Hflag. unfold updateClock, currentHour. rewrite Hflag. reflexivity. Qed.

(** Two long presses cancel: after two calls of [flipSummerMode] the clock
    renders every time as before, even when the EEPROM cell held a byte
    other than 0 and 1; and on a valid hour the hour with the summer mode on
    is always the hour with it off moved one step round 1..12. *)
Theorem flipSummerMode_twice (E : EEPROM) (map map' : list Z) (h m : Z) :
  1 <= h <= 12 ->
  updateClock (flipSummerMode (flipSummerMode E map).1 map').1 h m = updateClock E h m
  /\ (isSummerMode E = false ->
      currentHour (flipSummerMode E map).1 h = next_hour (currentHour E h))
  /\ (isSummerMode E = true ->
      currentHour E h = next_hour (currentHour (flipSummerMode E map).1 h)).
Proof.
  intros Hh.
  assert (forall E0 map0,
             isSummerMode (flipSummerMode E0 map0).1 = negb (isSummerMode E0)) as Hflip.
  { intros E0 map0. unfold flipSummerMode. cbn [fst].
    rewrite isSummerMode_write by (destruct (isSummerMode E0); lia).
    destruct (isSummerMode E0); reflexivity. }
  split; [| split].
  - apply updateClock_flag. rewrite !Hflip. apply negb_involutive.
  - intros HE.
    rewrite (currentHour_set (flipSummerMode E map).1 h) by (rewrite ?Hflip, ?HE; auto; lia).
    rewrite (currentHour_clear E h HE) by lia.
    rewrite next_hour_cycle by lia. apply succ_mod_12, Hh.
  - intros HE.
    rewrite (currentHour_set E h HE) by lia.
    rewrite (currentHour_clear (flipSummerMode E map).1 h) by (rewrite ?Hflip, ?HE; auto; lia).
    rewrite next_hour_cycle by lia. apply succ_mod_12, Hh.
Qed.

Lemma flipSummerMode_twice_witness :
  updateClock (flipSummerMode (flipSummerMode (fun _ => 7) []).1 []).1 12 40
  = updateClock (fun _ => 7) 12 40.
Proof.
  refine (proj1 (flipSummerMode_twice (fun _ => 7) [] [] 12 40 _)). lia.
Defined.

Lemma showTime_trace (map : list Z) (h m : Z) :
  length map = FONT_ROWS -> 0 <= h <= 119 -> 0 <= m <= 119 ->
  exists fh fm,
    mapNumber map h = Some fh
    /\ mapNumber fh m = Some fm
    /\ length fm = FONT_ROWS
    /\ trace (showTime map h m) = Some (mapShow fh ++ mapShow fm).
Proof.
  intros Hlen Hh Hm.
  destruct (mapNumber_frame map h Hlen Hh) as (fh & Hfh & Hlh & _).
  destruct (mapNumber_frame fh m Hlh Hm) as (fm & Hfm & Hlm & _).
  exists fh, fm. split; [exact Hfh |]. split; [exact Hfm |]. split; [exact Hlm |].
  unfold showTime, lift. rewrite Hfh. cbn [mbind option_bind IO_bind emits].
  rewrite Hfm. cbn [mbind option_bind IO_bind emits trace fmap option_fmap option_map snd].
  reflexivity.
Qed.

(** [showTime] draws the digits of the hour and then those of the minute,
    which stay on the display; it reads past the font table exactly when one
    of the two bytes is above 119. *)
Theorem showTime_frames (map : list Z) (h m : Z) (d : MD_MAX72XX.t) :
  length map = FONT_ROWS -> 0 <= h <= 255 -> 0 <= m <= 255 ->
  (h <= 119 /\ m <= 119 ->
   exists fh fm,
     mapNumber map h = Some fh
     /\ mapNumber fh m = Some fm
     /\ trace (showTime map h m) = Some (mapShow fh ++ mapShow fm)
     /\ rows (run (mapShow fh ++ mapShow fm) d) = fm)
  /\ (119 < h \/ 119 < m -> showTime map h m = None).
Proof.
  intros Hlen Hh Hm. split.
  - intros [Hh' Hm'].
    destruct (showTime_trace map h m Hlen) as (fh & fm & Hfh & Hfm & Hlm & Htr);
      [lia | lia |].
    exists fh, fm. repeat split; try assumption.
    rewrite run_app. apply mapShow_rows, Hlm.
  - intros Hbig. unfold showTime, lift.
    destruct (Z_le_gt_dec h 119) as [Hle | Hgt].
    + destruct (mapNumber_frame map h Hlen) as (fh & Hfh & Hlh & _); [lia |].
      rewrite Hfh. cbn [mbind option_bind IO_bind emits].
      assert (mapNumber fh m = None) as ->; [| reflexivity].
      unfold mapNumber.
      assert (12 <= m / 10 < 26) as Hhi
        by (split; [apply Z.div_le_lower_bound; lia | apply Z.div_lt_upper_bound; lia]).
      rewrite (u8_small (m / 10)) by lia. apply mapNumber_loop_past_table. lia.
    + assert (mapNumber map h = None) as ->; [| reflexivity].
      unfold mapNumber.
      assert (12 <= h / 10 < 26) as Hhi
        by (split; [apply Z.div_le_lower_bound; lia | apply Z.div_lt_upper_bound; lia]).
      rewrite (u8_small (h / 10)) by lia. apply mapNumber_loop_past_table. lia.
Qed.

Lemma showTime_frames_witness :
  showTime (replicate 8 0) 12 120 = None.
Proof.
  refine (proj2 (showTime_frames (replicate 8 0) 12 120
                   (MD_MAX72XX.mk true []) _ _ _) _);
    first [reflexivity | lia].
Defined.

(** ** loop *)

Lemma run_redraw (ws : list clockWord_t) (d1 d2 : MD_MAX72XX.t) :
  run ([control_UPDATE false; clear] ++ word_calls ws ++ [control_UPDATE true]) d1
  = run ([control_UPDATE false; clear] ++ word_calls ws ++ [control_UPDATE true]) d2.
Proof. rewrite !(run_app [control_UPDATE false; clear]). reflexivity. Qed.

(** The call of [loop] in [SR_UPDATE] on a valid time. *)
Lemma loop_update (i : loop_in) (sk : sketch_t) :
  sk_state sk = SR_UPDATE -> 1 <= RTC_h (li_time i) <= 12 ->
  exists clock',
    loop i sk = Returns (mkSketch SR_IDLE (li_millis i) (li_time i) (sk_eeprom sk)
                                  clock' (sk_written sk))
    /\ forall d,
         render_words (sk_eeprom sk) (RTC_h (li_time i)) (RTC_m (li_time i)) d
         = Some clock'.
Proof.
  destruct sk as [state tlu rtc E clock written].
  cbn [sk_state sk_eeprom sk_written]. intros -> Hh.
  destruct (updateClock_trace_of_hour E (RTC_h (li_time i)) (RTC_m (li_time i))
              (hour_value_range E _ _ Hh)) as (mw & hw & _ & _ & _ & Htr).
  eexists. cbn [loop]. unfold render_words. rewrite Htr. cbn [mbind option_bind].
  split; [reflexivity |]. intros d. f_equal; apply run_redraw.
Qed.

(** In [SR_IDLE] the switch beats the refresh: a double click, a click or
    a long press selects its mode even when the refresh is due; without one
    of them the display is refreshed exactly when [CLOCK_UPDATE_TIME]
    seconds have passed, also across the wrap of [millis()].  The call
    touches neither the display nor the RTC nor the EEPROM. *)
Theorem loop_idle (i : loop_in) (sk : sketch_t) (d : Z) :
  sk_state sk = SR_IDLE ->
  0 <= sk_timeLastUpdate sk < 2 ^ 32 -> 0 <= d < 2 ^ 32 ->
  li_millis i = u32 (sk_timeLastUpdate sk + d) ->
  loop i sk
  = Returns (mkSketch
               (match li_key i with
                | KS_DPRESS => SR_SETUP
                | KS_PRESS => SR_TIME
                | KS_LONGPRESS => SR_SUMMER_TIME
                | _ => if d >=? 5000 then SR_UPDATE else SR_IDLE
                end)
               (sk_timeLastUpdate sk) (sk_RTC sk) (sk_eeprom sk) (sk_clock sk)
               (sk_written sk)).
Proof.
  destruct sk as [state tlu rtc E clock written]. cbn. intros -> Ht Hd ->.
  assert (u32 (u32 (tlu + d) - tlu) = d) as ->.
  { unfold u32. rewrite Zminus_mod_idemp_l.
    replace (tlu + d - tlu) with d by lia. apply Z.mod_small, Hd. }
  change (u32 (CLOCK_UPDATE_TIME * 1000)) with 5000.
  destruct (li_key i), (d >=? 5000); reflexivity.
Qed.

Lemma loop_idle_witness :
  loop (mkLoopIn (u32 (2 ^ 32 - 10 + 6000)) KS_PRESS (mkRTC 1 2 3) [] [])
       (mkSketch SR_IDLE (2 ^ 32 - 10) (mkRTC 4 5 6) (fun _ => 0)
                 (MD_MAX72XX.mk true []) [])
  = Returns (mkSketch SR_TIME (2 ^ 32 - 10) (mkRTC 4 5 6) (fun _ => 0)
                      (MD_MAX72XX.mk true []) []).
Proof.
  apply (loop_idle (mkLoopIn (u32 (2 ^ 32 - 10 + 6000)) KS_PRESS (mkRTC 1 2 3) [] [])
           (mkSketch SR_IDLE (2 ^ 32 - 10) (mkRTC 4 5 6) (fun _ => 0)
                     (MD_MAX72XX.mk true []) [])
           6000); first [reflexivity | cbn; lia].
Defined.

(** [SR_SETUP] never reads past the font table on a valid time, and when
    [setupTime] returns the time handed to [RTC.writeTime()] is valid, has
    its seconds at 0 and is the only thing written; with no single click in
    the session it is the hour and minute of the last reading, so leaving
    setup without a change still resets the seconds. *)
Theorem loop_setup_writes_back (i : loop_in) (sk : sketch_t) :
  sk_state sk = SR_SETUP ->
  valid_time (RTC_h (sk_RTC sk)) (RTC_m (sk_RTC sk)) ->
  length (li_stack i) = FONT_ROWS ->
  loop i sk <> GoesWrong
  /\ forall sk', loop i sk = Returns sk' ->
       sk_state sk' = SR_UPDATE
       /\ sk_eeprom sk' = sk_eeprom sk
       /\ exists h' m',
            valid_time h' m'
            /\ sk_RTC sk' = mkRTC h' m' 0
            /\ sk_written sk' = mkRTC h' m' 0 :: sk_written sk
            /\ (Forall (fun p => sw_read p <> KS_PRESS) (li_polls i) ->
                h' = RTC_h (sk_RTC sk) /\ m' = RTC_m (sk_RTC sk)).
Proof.
  destruct sk as [state tlu rtc E clock written]. cbn. intros -> Hvalid Hlen.
  destruct (setupTime_loop_inv E (li_polls i)
              (mkSetup SS_DISP_HOUR (RTC_h rtc) (RTC_m rtc) (li_millis i)
                       (li_stack i) clock))
    as (st & Hrun & Hinv & _); [split; assumption |].
  unfold setupTime. rewrite Hrun.
  split; [destruct (st_state st); discriminate |].
  intros sk' Hret.
  destruct (st_state st) eqn:Hstate; try discriminate Hret.
  injection Hret as <-. cbn.
  split; [reflexivity |]. split; [reflexivity |].
  exists (st_h st), (st_m st).
  split; [exact Hinv |]. split; [reflexivity |]. split; [reflexivity |].
  intros Hkeys. exact (setupTime_loop_no_press E _ Hkeys _ _ Hrun).
Qed.

Lemma loop_setup_writes_back_witness :
  exists sk',
    loop (mkLoopIn 0 KS_NULL (mkRTC 1 1 1) [mkPoll 20000 KS_NULL 20000]
                   (replicate 8 0))
         (mkSketch SR_SETUP 0 (mkRTC 9 41 37) (fun _ => 0) (MD_MAX72XX.mk true []) [])
    = Returns sk'
    /\ sk_state sk' = SR_UPDATE
    /\ sk_written sk' = [mkRTC 9 41 0].
Proof.
  eexists. split; [vm_compute; reflexivity |].
  split; [| reflexivity].
  refine (proj1 (proj2 (loop_setup_writes_back
    (mkLoopIn 0 KS_NULL (mkRTC 1 1 1) [mkPoll 20000 KS_NULL 20000]
              (replicate 8 0))
    (mkSketch SR_SETUP 0 (mkRTC 9 41 37) (fun _ => 0) (MD_MAX72XX.mk true []) [])
    _ _ _) _ _)); first [vm_compute; reflexivity | unfold valid_time; cbn; lia].
Defined.

(** A long press from the idle clock: three calls of [loop] later the
    clock is idle again, the summer mode is inverted, nothing was written
    to the RTC, and the display shows the words of the time just read under
    the new mode. *)
Theorem loop_summer_cycle (i1 i2 i3 : loop_in) (sk : sketch_t) :
  sk_state sk = SR_IDLE -> li_key i1 = KS_LONGPRESS ->
  length (li_stack i2) = FONT_ROWS ->
  valid_time (RTC_h (li_time i3)) (RTC_m (li_time i3)) ->
  exists sk',
    loops [i1; i2; i3] sk = Returns sk'
    /\ sk_state sk' = SR_IDLE
    /\ isSummerMode (sk_eeprom sk') = negb (isSummerMode (sk_eeprom sk))
    /\ sk_written sk' = sk_written sk
    /\ sk_RTC sk' = li_time i3
    /\ forall d,
         render_words (sk_eeprom sk') (RTC_h (li_time i3)) (RTC_m (li_time i3)) d
         = Some (sk_clock sk').
Proof.
  destruct sk as [state tlu rtc E clock written]. cbn [sk_state sk_eeprom sk_written].
  intros -> Hkey Hlen [Hh Hm].
  destruct (flipSummerMode_effect E (li_stack i2) Hlen)
    as (Hflip & _ & _ & frame & Htr & _).
  cbn [loops loop]. rewrite Hkey.
  destruct (flipSummerMode E (li_stack i2)) as [E' c] eqn:Hfl. cbn [fst snd] in *.
  rewrite Htr.
  match goal with
  | |- context [loop i3 ?s] =>
      destruct (loop_update i3 s eq_refl Hh) as (clock' & Hloop & Hrender)
  end.
  rewrite Hloop. eexists. split; [reflexivity |]. cbn.
  repeat split; try assumption; try reflexivity.
Qed.

Lemma loop_summer_cycle_witness :
  exists sk',
    loops [mkLoopIn 10 KS_LONGPRESS (mkRTC 0 0 0) [] [];
           mkLoopIn 20 KS_NULL (mkRTC 0 0 0) [] (replicate 8 0);
           mkLoopIn 30 KS_NULL (mkRTC 12 45 10) [] []]
      (mkSketch SR_IDLE 0 (mkRTC 12 44 0) (fun _ => 0) (MD_MAX72XX.mk true []) [])
    = Returns sk'
    /\ isSummerMode (sk_eeprom sk') = true.
Proof.
  destruct (loop_summer_cycle
    (mkLoopIn 10 KS_LONGPRESS (mkRTC 0 0 0) [] [])
    (mkLoopIn 20 KS_NULL (mkRTC 0 0 0) [] (replicate 8 0))
    (mkLoopIn 30 KS_NULL (mkRTC 12 45 10) [] [])
    (mkSketch SR_IDLE 0 (mkRTC 12 44 0) (fun _ => 0) (MD_MAX72XX.mk true []) []))
    as (sk' & Hrun & _ & Hflag & _);
    [reflexivity | reflexivity | reflexivity | unfold valid_time; cbn; lia |].
  exists sk'. split; [exact Hrun | exact Hflag].
Defined.

(** A single click from the idle clock: the digits are shown and, three
    calls of [loop] later, the clock is idle again with the words of the
    time just read; neither the EEPROM nor the RTC was written.  Any byte
    may stand in [RTC.h], and [RTC.m] may be anything up to 119. *)
Theorem loop_show_time_cycle (i1 i2 i3 : loop_in) (sk : sketch_t) :
  sk_state sk = SR_IDLE -> li_key i1 = KS_PRESS ->
  length (li_stack i2) = FONT_ROWS ->
  0 <= RTC_h (sk_RTC sk) <= 255 -> 0 <= RTC_m (sk_RTC sk) <= 119 ->
  valid_time (RTC_h (li_time i3)) (RTC_m (li_time i3)) ->
  exists sk',
    loops [i1; i2; i3] sk = Returns sk'
    /\ sk_state sk' = SR_IDLE
    /\ sk_eeprom sk' = sk_eeprom sk
    /\ sk_written sk' = sk_written sk
    /\ sk_RTC sk' = li_time i3
    /\ forall d,
         render_words (sk_eeprom sk) (RTC_h (li_time i3)) (RTC_m (li_time i3)) d
         = Some (sk_clock sk').
Proof.
  destruct sk as [state tlu rtc E clock written].
  cbn [sk_state sk_eeprom sk_written sk_RTC].
  intros -> Hkey Hlen Hh Hm [Hh3 Hm3].
  destruct (currentHour_byte E (RTC_h rtc) Hh) as [Hc _].
  destruct (showTime_trace (li_stack i2) (currentHour E (RTC_h rtc)) (RTC_m rtc) Hlen)
    as (fh & fm & _ & _ & _ & Htr); [lia | lia |].
  cbn [loops loop]. rewrite Hkey, Htr.
  match goal with
  | |- context [loop i3 ?s] =>
      destruct (loop_update i3 s eq_refl Hh3) as (clock' & Hloop & Hrender)
  end.
  rewrite Hloop. eexists. split; [reflexivity |]. cbn.
  repeat split; try assumption; try reflexivity.
Qed.

Lemma loop_show_time_cycle_witness :
  exists sk',
    loops [mkLoopIn 10 KS_PRESS (mkRTC 0 0 0) [] [];
           mkLoopIn 20 KS_NULL (mkRTC 0 0 0) [] (replicate 8 0);
           mkLoopIn 2030 KS_NULL (mkRTC 3 7 2) [] []]
      (mkSketch SR_IDLE 0 (mkRTC 3 7 0) (fun _ => 1) (MD_MAX72XX.mk true []) [])
    = Returns sk'
    /\ sk_state sk' = SR_IDLE.
Proof.
  destruct (loop_show_time_cycle
    (mkLoopIn 10 KS_PRESS (mkRTC 0 0 0) [] [])
    (mkLoopIn 20 KS_NULL (mkRTC 0 0 0) [] (replicate 8 0))
    (mkLoopIn 2030 KS_NULL (mkRTC 3 7 2) [] [])
    (mkSketch SR_IDLE 0 (mkRTC 3 7 0) (fun _ => 1) (MD_MAX72XX.mk true []) []))
    as (sk' & Hrun & Hstate & _);
    [reflexivity | reflexivity | reflexivity | cbn; lia | cbn; lia
    | unfold valid_time; cbn; lia |].
  exists sk'. split; [exact Hrun | exact Hstate].
Defined.
